(** * The stamp registry of the VFS garbage collector (lib/vfs/gc.c)

    A shallow embedding of [lib/vfs/gc.c]: the list of stamps, the
    operations that touch, remove and conditionally create a stamp, and the
    sweep that releases the file systems whose stamp is too old.

    The file-scope variables of gc.c ([stamps], [vfs_timeout], the static
    [locked] of [vfs_expire]) are the fields of an explicit [state] that
    every operation takes and returns.  What gc.c reads from the rest of the
    program (the clock, the current directory, the handlers of the
    "vfs_timestamp" event) are further fields of that state, and the calls
    [v->free (id)] that gc.c makes are recorded in the trace [released]. *)

From stdpp Require Import base numbers list option strings.

Local Open Scope Z_scope.

(** Closes a decidable goal about concrete data by evaluation. *)
Ltac by_computation := apply (bool_decide_unpack _); vm_compute; exact I.

(** ** Data *)

(** [struct timeval]: seconds and microseconds.  [time_t] and [suseconds_t]
    are signed; their arithmetic is taken in [Z], that is, the subtraction in
    [vfs_expire] is assumed not to overflow (an overflow is undefined in C). *)
Record timeval := Timeval { tv_sec : Z; tv_usec : Z }.

(** Pointers to [struct vfs_class] and the opaque [vfsid] ([void *]) are
    compared only by address: both are addresses in [N], with [0] for NULL. *)
Abbreviation class_ptr := N (only parsing).
Abbreviation vfsid := N (only parsing).

(** The members of [struct vfs_class] that gc.c reads.  [free] and
    [nothingisopen] are function pointers, [None] being NULL.  gc.c cannot see
    what [free (id)] does inside the backend; what matters to the collector is
    whether the callback comes back into it, so a callback is described by
    the calls of [vfs_expire] it makes while it runs, given by their [now]
    arguments in order. *)
Record vfs_class := VfsClass {
  flags : Z;
  free : option (vfsid → list bool);
  nothingisopen : option (vfsid → Z);
}.

(** [struct vfs_stamping]; the members are [v], [id] and [time] in gc.c. *)
Record vfs_stamping := Stamping {
  stamp_v : class_ptr;
  stamp_id : vfsid;
  stamp_time : timeval;
}.

(** A [vfs_path_t] as gc.c observes it: the class of its last element
    ([vfs_path_get_by_index (vpath, -1)->class]) and [vfs_getid (vpath)]. *)
Record vfs_path := VfsPath { path_class : class_ptr; path_id : vfsid }.

Record state := State {
  stamps : list vfs_stamping;        (* static GSList *stamps *)
  vfs_timeout : Z;                   (* int vfs_timeout *)
  locked : bool;                     (* static gboolean locked, in vfs_expire *)
  clock : timeval;                   (* the value gettimeofday stores *)
  current_dir : vfs_path;            (* vfs_get_raw_current_dir () *)
  listener : option (class_ptr → vfsid → bool);
    (* the handlers of core/"vfs_timestamp": None when mc_event_present is
       false, otherwise the value they leave in event_data.ret *)
  released : list (class_ptr * vfsid);  (* the calls v->free (id), oldest first *)
}.

Definition set_stamps (l : list vfs_stamping) (st : state) : state :=
  State l (vfs_timeout st) (locked st) (clock st) (current_dir st)
        (listener st) (released st).

Definition set_locked (b : bool) (st : state) : state :=
  State (stamps st) (vfs_timeout st) b (clock st) (current_dir st)
        (listener st) (released st).

Definition set_released (r : list (class_ptr * vfsid)) (st : state) : state :=
  State (stamps st) (vfs_timeout st) (locked st) (clock st) (current_dir st)
        (listener st) r.

Definition set_clock (t : timeval) (st : state) : state :=
  State (stamps st) (vfs_timeout st) (locked st) t (current_dir st)
        (listener st) (released st).

Definition set_current_dir (p : vfs_path) (st : state) : state :=
  State (stamps st) (vfs_timeout st) (locked st) (clock st) p
        (listener st) (released st).

Definition set_listener (h : option (class_ptr → vfsid → bool)) (st : state) : state :=
  State (stamps st) (vfs_timeout st) (locked st) (clock st) (current_dir st)
        h (released st).

Definition set_vfs_timeout (z : Z) (st : state) : state :=
  State (stamps st) z (locked st) (clock st) (current_dir st)
        (listener st) (released st).

(** The state at program start: no stamp, [vfs_timeout = 60], latch open. *)
Definition initial_state (t : timeval) (cwd : vfs_path)
    (h : option (class_ptr → vfsid → bool)) : state :=
  State [] 60 false t cwd h [].

(** The key a stamp is looked up by. *)
Definition stamp_key (s : vfs_stamping) : class_ptr * vfsid :=
  (stamp_v s, stamp_id s).

(** ** GLib's singly linked lists

    A [GSList *] into [stamps] is the position of the link together with its
    [data]. *)

Definition g_slist_find_custom {A B} (lst : list A) (data : B)
    (func : A → B → Z) : option (nat * A) :=
  list_find (λ x, func x data = 0) lst.

Definition g_slist_delete_link {A} (lst : list A) (link : nat * A) : list A :=
  delete (link.1) lst.

Definition g_slist_append {A} (lst : list A) (data : A) : list A :=
  lst ++ [data].

(** [g_slist_foreach] reads the [next] link before it calls [func], so [func]
    may delete the link it is called on.  The callback is fallible here
    because the ones that reach [vfs_expire] carry its recursion budget. *)
Fixpoint g_slist_foreach {A U S} (lst : list A) (func : A → U → S → option S)
    (user_data : U) (st : S) : option S :=
  match lst with
  | [] => Some st
  | data :: next =>
      match func data user_data st with
      | Some st' => g_slist_foreach next func user_data st'
      | None => None
      end
  end.

(** Calls made one after the other, each on the state the one before left. *)
Fixpoint in_turn {A S} (call : A → S → option S) (l : list A) (st : S)
    : option S :=
  match l with
  | [] => Some st
  | a :: l' =>
      match call a st with
      | Some st' => in_turn call l' st'
      | None => None
      end
  end.

(** ** Concrete backends and states used to exercise the model *)

Definition demo_class (c : class_ptr) : vfs_class :=
  match c with
  | 1%N => VfsClass 0 (Some (λ _, [])) (Some (λ _, 1))           (* remote, plain free *)
  | 2%N => VfsClass 1 (Some (λ _, [])) (Some (λ _, 1))           (* local *)
  | 3%N => VfsClass 2 (Some (λ _, [true; false])) (Some (λ _, 1)) (* free re-enters the sweep *)
  | 4%N => VfsClass 0 None None                                  (* no callbacks *)
  | _ => VfsClass 1 None None
  end.

Definition demo_path_from_str (s : string) : vfs_path :=
  if String.eqb s "/#ftp:host" then VfsPath 1 7
  else if String.eqb s "/#sh:host" then VfsPath 3 9
  else VfsPath 2 0.

Definition demo_stamps : list vfs_stamping :=
  [ Stamping 1 7 (Timeval 1000 500);
    Stamping 3 9 (Timeval 1030 0);
    Stamping 4 7 (Timeval 940 500);
    Stamping 3 5 (Timeval 1000 499) ].

Definition demo_state : state :=
  State demo_stamps 60 false (Timeval 1060 500) (VfsPath 2 0) None [].

(** Session 7 of class 1 has a stamp, the current directory is session 9 of
    class 3, and nothing listens to "vfs_timestamp". *)
Definition nav_state : state :=
  State [Stamping 1 7 (Timeval 1000 0)] 60 false (Timeval 1010 0)
        (VfsPath 3 9) None [].

Section gc.

(** [VFSF_LOCAL] is defined in vfs.h; gc.c only tests [flags] against it. *)
Variable VFSF_LOCAL : Z.

(** The [struct vfs_class] an address points to. *)
Variable class_at : class_ptr → vfs_class.

(** [vfs_path_from_str], the path parser of the VFS layer. *)
Variable vfs_path_from_str : string → vfs_path.

(** ** File scope functions *)

(** The result is C's truth value of the comparison. *)
Definition timeoutcmp (t1 t2 : timeval) : bool :=
  (tv_sec t1 <? tv_sec t2)
  || ((tv_sec t1 =? tv_sec t2) && (tv_usec t1 <=? tv_usec t2)).

Definition vfs_stamp_compare (vsa vsb : vfs_stamping) : Z :=
  if (stamp_v vsa =? stamp_v vsb)%N && (stamp_id vsa =? stamp_id vsb)%N
  then 0 else 1.

(** ** Public functions that the file scope ones call *)

(** [what] is the key with which the list is searched; the initializer
    leaves its [time] zero. *)
Definition what (v : class_ptr) (id : vfsid) : vfs_stamping :=
  Stamping v id (Timeval 0 0).

Definition vfs_stamp (v : class_ptr) (id : vfsid) (st : state) : bool * state :=
  match g_slist_find_custom (stamps st) (what v id) vfs_stamp_compare with
  | Some (i, data) =>
      (* gettimeofday (&(VFS_STAMPING (stamp->data)->time), NULL) *)
      (true,
       set_stamps
         (<[i := Stamping (stamp_v data) (stamp_id data) (clock st)]> (stamps st))
         st)
  | None => (false, st)
  end.

Definition vfs_rmstamp (v : class_ptr) (id : vfsid) (st : state) : state :=
  match g_slist_find_custom (stamps st) (what v id) vfs_stamp_compare with
  | Some stamp => set_stamps (g_slist_delete_link (stamps st) stamp) st
  | None => st
  end.

(** ** The release callback and the sweep *)

Section callbacks.
(** [vfs_expire] as the callbacks can call it. *)
Variable expire : bool → state → option state.

(** The call [v->free (id)]: it is recorded, then the callback makes its
    calls of [vfs_expire]. *)
Definition call_free (reenters : vfsid → list bool) (v : class_ptr)
    (id : vfsid) (st : state) : option state :=
  in_turn expire (reenters id) (set_released (released st ++ [(v, id)]) st).

Definition vfs_stamp_free (data : vfs_stamping) (user_data : option timeval)
    (st : state) : option state :=
  match free (class_at (stamp_v data)) with
  | Some reenters => call_free reenters (stamp_v data) (stamp_id data) st
  | None => Some st
  end.

(** [user_data] is NULL ([None]) or points to the cutoff time. *)
Definition vfs_stamp_expire (data : vfs_stamping)
    (user_data : option timeval) (st : state) : option state :=
  if match user_data with
     | None => true
     | Some t => timeoutcmp (stamp_time data) t
     end
  then
    match vfs_stamp_free data None st with
    | Some st' => Some (vfs_rmstamp (stamp_v data) (stamp_id data) st')
    | None => None
    end
  else Some st.
End callbacks.

Definition vfs_addstamp (v : class_ptr) (id : vfsid) (st : state) : state :=
  if Z.land (flags (class_at v)) VFSF_LOCAL =? 0 then
    if negb (id =? 0)%N then
      let '(found, st1) := vfs_stamp v id st in
      if negb found then
        set_stamps (g_slist_append (stamps st1) (Stamping v id (clock st1))) st1
      else st1
    else st
  else st.

Definition vfs_stamp_path (path : string) (st : state) : state :=
  let vpath := vfs_path_from_str path in
  vfs_addstamp (path_class vpath) (path_id vpath) st.

Definition vfs_stamp_create (vclass : class_ptr) (id : vfsid) (st : state) : state :=
  match listener st with
  | None => st                       (* !mc_event_present (...) *)
  | Some handlers =>
      let vpath := current_dir st in
      let nvfsid := path_id vpath in
      let st1 := vfs_rmstamp (path_class vpath) nvfsid st in
      if negb ((id =? 0)%N
               || ((path_class vpath =? vclass)%N && (nvfsid =? id)%N))
      then
        let ret := handlers vclass id in      (* mc_event_raise *)
        if negb ret && negb (vclass =? 0)%N
           && match nothingisopen (class_at vclass) with
              | Some f => negb (f id =? 0)
              | None => false
              end
        then vfs_addstamp vclass id st1
        else st1
      else st1
  end.

(** [fuel] bounds the depth of the calls of [vfs_expire] that are in
    progress at once: the function calls the release callbacks, which call
    it back.  [None] means that the bound was reached. *)
Fixpoint vfs_expire (fuel : nat) (now : bool) (st : state) : option state :=
  match fuel with
  | O => None
  | S fuel' =>
      if locked st then Some st
      else
        let st1 := set_locked true st in
        match
          if now then
            g_slist_foreach (stamps st1) (vfs_stamp_expire (vfs_expire fuel'))
              None st1
          else
            let lc_time := clock st1 in           (* gettimeofday *)
            let lc_time :=
              Timeval (tv_sec lc_time - vfs_timeout st1) (tv_usec lc_time) in
            g_slist_foreach (stamps st1) (vfs_stamp_expire (vfs_expire fuel'))
              (Some lc_time) st1
        with
        | Some st2 => Some (set_locked false st2)
        | None => None
        end
  end.

Definition vfs_timeouts (st : state) : Z :=
  match stamps st with [] => 0 | _ :: _ => 10 end.

Definition vfs_timeout_handler (fuel : nat) (st : state) : option state :=
  vfs_expire fuel false st.

Definition vfs_release_path (vpath : vfs_path) (st : state) : state :=
  vfs_stamp_create (path_class vpath) (path_id vpath) st.

(** The number of links of [l] whose stamp [vfs_stamp_compare] matches with
    [data]. *)
Definition links_of (data : vfs_stamping) (l : list vfs_stamping) : nat :=
  length (filter (λ s, vfs_stamp_compare s data = 0) l).

(** Whether the first link of [links] is still in the list of [st], where
    [links] are the links that the list had from that link on when the
    traversal of [vfs_gc_done] started.  During that traversal nothing is
    appended and only [vfs_rmstamp] deletes, which takes the first link that
    matches: the links of a pair that are left are always the last ones.  So
    the link is still there exactly when the list holds at least as many
    links of its pair as there are from this link on. *)
Definition link_live (links : list vfs_stamping) (st : state) : bool :=
  match links with
  | [] => false
  | data :: _ => (links_of data links <=? links_of data (stamps st))%nat
  end.

(** [g_slist_foreach] over [stamps] when [func] deletes links other than the
    one it is called on, as the callbacks of [vfs_gc_done] can: the latch of
    [vfs_expire] is open there, so a [free] that re-enters the sweep deletes
    links under the traversal.  [lst] are the links that were behind the
    cursor when the traversal started, [read] is the state in which the
    cursor's [next] pointer was read, and [st] is the state now.  A link that
    was already deleted when [next] was read is not on the path any more.  A
    link that was there then and has been deleted since is the [next] that
    the loop holds: it points to freed memory, following it is undefined in
    C, and the traversal has no result ([None]). *)
Fixpoint g_slist_foreach_live (lst : list vfs_stamping)
    (func : vfs_stamping → option timeval → state → option state)
    (user_data : option timeval) (read st : state) : option state :=
  match lst with
  | [] => Some st
  | data :: next =>
      if negb (link_live lst read) then
        g_slist_foreach_live next func user_data read st
      else if negb (link_live lst st) then None
      else
        match func data user_data st with
        | Some st' => g_slist_foreach_live next func user_data st st'
        | None => None
        end
  end.

(** [None]: a callback reached the bound of [vfs_expire], or the traversal
    followed a link that a callback had freed. *)
Definition vfs_gc_done (fuel : nat) (st : state) : option state :=
  match g_slist_foreach_live (stamps st) (vfs_stamp_free (vfs_expire fuel))
          None st st with
  | Some st' => Some (set_stamps [] st')   (* g_slist_free_full; stamps = NULL *)
  | None => None
  end.

(** ** Sequences of calls

    The public functions of gc.h, and the changes of what gc.c reads from its
    surroundings. *)
Inductive op :=
  | OpStamp (v : class_ptr) (id : vfsid)
  | OpRmstamp (v : class_ptr) (id : vfsid)
  | OpStampPath (path : string)
  | OpStampCreate (vclass : class_ptr) (id : vfsid)
  | OpExpire (now : bool)
  | OpTimeouts
  | OpTimeoutHandler
  | OpReleasePath (vpath : vfs_path)
  | OpGcDone
  | EnvClock (t : timeval)
  | EnvChdir (vpath : vfs_path)
  | EnvListener (h : option (class_ptr → vfsid → bool))
  | EnvTimeout (z : Z).

(** [None]: the call has no result, because the bound on the nested calls of
    [vfs_expire] was reached or because [vfs_gc_done] followed a freed
    link. *)
Definition step (fuel : nat) (o : op) (st : state) : option state :=
  match o with
  | OpStamp v id => Some (vfs_stamp v id st).2
  | OpRmstamp v id => Some (vfs_rmstamp v id st)
  | OpStampPath path => Some (vfs_stamp_path path st)
  | OpStampCreate vclass id => Some (vfs_stamp_create vclass id st)
  | OpExpire now => vfs_expire fuel now st
  | OpTimeouts => Some st
  | OpTimeoutHandler => vfs_timeout_handler fuel st
  | OpReleasePath vpath => Some (vfs_release_path vpath st)
  | OpGcDone => vfs_gc_done fuel st
  | EnvClock t => Some (set_clock t st)
  | EnvChdir vpath => Some (set_current_dir vpath st)
  | EnvListener h => Some (set_listener h st)
  | EnvTimeout z => Some (set_vfs_timeout z st)
  end.

Definition run (fuel : nat) (ops : list op) (st : state) : option state :=
  in_turn (step fuel) ops st.

(** The [free] of the class of [s] makes no call of [vfs_expire] when it is
    called for the id of [s]. *)
Definition quiet_free (s : vfs_stamping) : Prop :=
  match free (class_at (stamp_v s)) with
  | Some reenters => reenters (stamp_id s) = []
  | None => True
  end.

(** The sequence [ops] comes to a call of [vfs_gc_done] that has no result:
    it is made in a state [st1] with a stamp whose [free] re-enters the
    sweep, and its traversal follows a freed link. *)
Definition stops_in_gc_done (fuel : nat) (ops : list op) (st : state) : Prop :=
  ∃ ops1 ops2 st1,
    ops = ops1 ++ OpGcDone :: ops2
    ∧ run fuel ops1 st = Some st1
    ∧ vfs_gc_done fuel st1 = None
    ∧ ∃ s, s ∈ stamps st1 ∧ ¬ quiet_free s.

(** ** Properties of a registry *)

(** At most one stamp per (class, id) pair. *)
Definition stamps_unique (st : state) : Prop :=
  NoDup (stamp_key <$> stamps st).

(** The class has the local flag set. *)
Definition is_local (v : class_ptr) : bool :=
  negb (Z.land (flags (class_at v)) VFSF_LOCAL =? 0).

(** The number of stamps of a pair. *)
Definition count_stamps (v : class_ptr) (id : vfsid) (l : list vfs_stamping) : nat :=
  length (filter (λ s, stamp_key s = (v, id)) l).

(** The time of the first stamp of a pair. *)
Definition stamp_time_of (v : class_ptr) (id : vfsid) (l : list vfs_stamping)
    : option timeval :=
  stamp_time <$> (snd <$> g_slist_find_custom l (what v id) vfs_stamp_compare).

(** The cutoff of a sweep that is not forced. *)
Definition cutoff (st : state) : timeval :=
  Timeval (tv_sec (clock st) - vfs_timeout st) (tv_usec (clock st)).

(** The test of [vfs_stamp_expire]: the sweep is forced, or the stamp is not
    younger than the cutoff. *)
Definition expired (user_data : option timeval) (data : vfs_stamping) : bool :=
  match user_data with
  | None => true
  | Some t => timeoutcmp (stamp_time data) t
  end.

(** [t1] is not later than [t2], seconds first and then microseconds. *)
Definition timeval_le (t1 t2 : timeval) : Prop :=
  tv_sec t1 < tv_sec t2 ∨ (tv_sec t1 = tv_sec t2 ∧ tv_usec t1 ≤ tv_usec t2).

(** A time in microseconds, and the times that [gettimeofday] can store. *)
Definition timeval_usec (t : timeval) : Z := tv_sec t * 1000000 + tv_usec t.

Definition timeval_normal (t : timeval) : Prop := 0 ≤ tv_usec t < 1000000.

(** The pairs whose [free] a sweep over [l] calls. *)
Definition freed_keys (l : list vfs_stamping) : list (class_ptr * vfsid) :=
  stamp_key <$> filter (λ s, is_Some (free (class_at (stamp_v s)))) l.

(** The [user_data] that [vfs_expire] hands to [vfs_stamp_expire]. *)
Definition sweep_arg (now : bool) (st : state) : option timeval :=
  if now then None else Some (cutoff st).

(** The state a sweep with argument [ud] leaves: the expired stamps are gone,
    the others stay as they are, and the releases are appended to the trace. *)
Definition swept (ud : option timeval) (st : state) : state :=
  set_released
    (released st ++ freed_keys (filter (λ s, expired ud s = true) (stamps st)))
    (set_stamps (filter (λ s, expired ud s = false) (stamps st)) st).

(** Every stamp belongs to a class that is not local and has an id that is
    not NULL. *)
Definition stamps_remote (st : state) : Prop :=
  Forall (λ s, is_local (stamp_v s) = false ∧ stamp_id s ≠ 0%N) (stamps st).

(** The pairs that have a stamp, in the order of the list. *)
Definition keys (st : state) : list (class_ptr * vfsid) :=
  stamp_key <$> stamps st.

(** A property of the stamped pairs that survives the two ways in which gc.c
    changes them: links are deleted, and a pair that has no stamp, whose class
    is not local and whose id is not NULL, is appended. *)
Definition registry_property (P : list (class_ptr * vfsid) → Prop) : Prop :=
  (∀ k k', k' `sublist_of` k → P k → P k')
  ∧ (∀ k v id, (v, id) ∉ k → is_local v = false → id ≠ 0%N →
               P k → P (k ++ [(v, id)])).

(** The states the program can be in between two calls of the public
    functions. *)
Definition reachable (st : state) : Prop :=
  ∃ fuel ops t cwd h, run fuel ops (initial_state t cwd h) = Some st.

(** The number of calls [v->free (id)] in a trace. *)
Definition count_calls (v : class_ptr) (id : vfsid)
    (r : list (class_ptr * vfsid)) : nat :=
  length (filter (λ k, k = (v, id)) r).

(** [st'] is [st] with links of [stamps] deleted and calls of [free] appended
    to the trace; nothing else differs. *)
Definition sweep_frame (st st' : state) : Prop :=
  stamps st' `sublist_of` stamps st
  ∧ released st `prefix_of` released st'
  ∧ vfs_timeout st' = vfs_timeout st
  ∧ clock st' = clock st
  ∧ current_dir st' = current_dir st
  ∧ listener st' = listener st.

(** The pair of the current directory. *)
Definition current_key (st : state) : class_ptr * vfsid :=
  (path_class (current_dir st), path_id (current_dir st)).

#[local] Instance timeval_le_dec t1 t2 : Decision (timeval_le t1 t2).
Proof. unfold timeval_le. apply _. Defined.

#[local] Instance quiet_free_dec s : Decision (quiet_free s).
Proof. unfold quiet_free. destruct (free _); apply _. Defined.

(** ** The list operations on stamps *)

Lemma vfs_stamp_compare_0 a b :
  vfs_stamp_compare a b = 0 ↔ stamp_key a = stamp_key b.
Proof.
  unfold vfs_stamp_compare, stamp_key.
  destruct (N.eqb_spec (stamp_v a) (stamp_v b)) as [->|Hv];
    destruct (N.eqb_spec (stamp_id a) (stamp_id b)) as [->|Hi]; simpl;
    split; intros H; try done; congruence.
Qed.

Lemma find_miss l v id :
  (v, id) ∉ stamp_key <$> l →
  g_slist_find_custom l (what v id) vfs_stamp_compare = None.
Proof.
  intros Hnot. apply list_find_None, Forall_forall. intros x Hx Hc.
  apply vfs_stamp_compare_0 in Hc. apply Hnot.
  apply list_elem_of_fmap. exists x. split; [by rewrite Hc|done].
Qed.

Lemma find_hit l1 s l2 v id :
  (v, id) ∉ stamp_key <$> l1 → stamp_key s = (v, id) →
  g_slist_find_custom (l1 ++ s :: l2) (what v id) vfs_stamp_compare
  = Some (length l1, s).
Proof.
  intros Hnot Hs. unfold g_slist_find_custom.
  rewrite list_find_app_r by (by apply find_miss).
  simpl. rewrite decide_True by (by apply vfs_stamp_compare_0).
  done.
Qed.

Lemma key_split l v id :
  (v, id) ∈ stamp_key <$> l →
  ∃ l1 s l2, l = l1 ++ s :: l2 ∧ stamp_key s = (v, id)
             ∧ (v, id) ∉ stamp_key <$> l1.
Proof.
  induction l as [|x l IH]; simpl; [by intros ?%elem_of_nil|].
  intros Hin. destruct (decide (stamp_key x = (v, id))) as [Hx|Hx].
  - exists [], x, l. split_and!; [done|done|]. simpl. apply not_elem_of_nil.
  - apply elem_of_cons in Hin as [Hin|Hin]; [congruence|].
    destruct (IH Hin) as (l1 & s & l2 & -> & Hs & Hl1).
    exists (x :: l1), s, l2. split_and!; [done|done|].
    simpl. intros [?|?]%elem_of_cons; [congruence|done].
Qed.

Lemma find_some_inv l v id i s :
  g_slist_find_custom l (what v id) vfs_stamp_compare = Some (i, s) →
  ∃ l1 l2, l = l1 ++ s :: l2 ∧ length l1 = i ∧ stamp_key s = (v, id)
           ∧ (v, id) ∉ stamp_key <$> l1.
Proof.
  intros Hf. assert (Hin : (v, id) ∈ stamp_key <$> l).
  { apply list_find_Some in Hf as (Hl & Hc & _).
    apply vfs_stamp_compare_0 in Hc. apply list_elem_of_fmap.
    exists s. split; [done|]. by eapply list_elem_of_lookup_2. }
  destruct (key_split _ _ _ Hin) as (l1 & s' & l2 & -> & Hs & Hl1).
  rewrite (find_hit _ _ _ _ _ Hl1 Hs) in Hf. injection Hf as <- <-.
  by exists l1, l2.
Qed.

Lemma vfs_stamp_miss v id st :
  (v, id) ∉ stamp_key <$> stamps st → vfs_stamp v id st = (false, st).
Proof. intros H. unfold vfs_stamp. by rewrite find_miss. Qed.

Lemma vfs_stamp_hit l1 s l2 v id st :
  stamps st = l1 ++ s :: l2 → stamp_key s = (v, id) →
  (v, id) ∉ stamp_key <$> l1 →
  vfs_stamp v id st
  = (true, set_stamps (l1 ++ Stamping v id (clock st) :: l2) st).
Proof.
  intros Hl Hs Hl1. unfold vfs_stamp. rewrite Hl, (find_hit _ _ _ _ _ Hl1 Hs).
  rewrite insert_app_r_alt, Nat.sub_diag by done. simpl.
  injection Hs as -> ->. done.
Qed.

Lemma vfs_rmstamp_miss v id st :
  (v, id) ∉ stamp_key <$> stamps st → vfs_rmstamp v id st = st.
Proof. intros H. unfold vfs_rmstamp. by rewrite find_miss. Qed.

Lemma vfs_rmstamp_hit l1 s l2 v id st :
  stamps st = l1 ++ s :: l2 → stamp_key s = (v, id) →
  (v, id) ∉ stamp_key <$> l1 →
  vfs_rmstamp v id st = set_stamps (l1 ++ l2) st.
Proof.
  intros Hl Hs Hl1. unfold vfs_rmstamp. rewrite Hl, (find_hit _ _ _ _ _ Hl1 Hs).
  unfold g_slist_delete_link. simpl. by rewrite delete_middle.
Qed.

(** ** The release callback while a sweep is running *)

Lemma vfs_expire_locked n now st :
  locked st = true → vfs_expire (S n) now st = Some st.
Proof. intros H. simpl. by rewrite H. Qed.

Lemma reenter_locked n (calls : list bool) st :
  locked st = true → in_turn (vfs_expire (S n)) calls st = Some st.
Proof.
  intros H. induction calls as [|b calls IH]; [done|].
  cbn [in_turn]. by rewrite vfs_expire_locked.
Qed.

Lemma call_free_locked n reenters v id st :
  locked st = true →
  call_free (vfs_expire (S n)) reenters v id st
  = Some (set_released (released st ++ [(v, id)]) st).
Proof. intros H. unfold call_free. by apply reenter_locked. Qed.

Lemma freed_keys_app l1 l2 : freed_keys (l1 ++ l2) = freed_keys l1 ++ freed_keys l2.
Proof. unfold freed_keys. by rewrite filter_app, fmap_app. Qed.

Lemma freed_keys_cons s l : freed_keys (s :: l) = freed_keys [s] ++ freed_keys l.
Proof. apply (freed_keys_app [s] l). Qed.

Lemma set_released_id st : set_released (released st) st = st.
Proof. by destruct st. Qed.

Lemma vfs_stamp_free_locked n s ud st :
  locked st = true →
  vfs_stamp_free (vfs_expire (S n)) s ud st
  = Some (set_released (released st ++ freed_keys [s]) st).
Proof.
  intros H. unfold vfs_stamp_free, freed_keys.
  destruct (free (class_at (stamp_v s))) as [r|] eqn:Hfree.
  - rewrite call_free_locked by done.
    rewrite filter_cons_True by (by rewrite Hfree). done.
  - rewrite filter_cons_False by (rewrite Hfree; by intros [? ?]).
    simpl. by rewrite app_nil_r, set_released_id.
Qed.

(** The traversal of [vfs_expire].  [kept] are the stamps already visited
    and left in the list; [rest] are the links still to visit. *)
Lemma sweep_loop n ud rest : ∀ kept st,
  locked st = true → stamps st = kept ++ rest →
  NoDup (stamp_key <$> kept ++ rest) ∨ (ud = None ∧ kept = []) →
  g_slist_foreach rest (vfs_stamp_expire (vfs_expire (S n))) ud st
  = Some (set_released
            (released st ++ freed_keys (filter (λ s, expired ud s = true) rest))
            (set_stamps (kept ++ filter (λ s, expired ud s = false) rest) st)).
Proof.
  induction rest as [|x rest IH]; intros kept st Hlock Hst Hcase.
  - simpl. rewrite app_nil_r in Hst. rewrite !app_nil_r, <- Hst. by destruct st.
  - cbn [g_slist_foreach]. unfold vfs_stamp_expire at 1.
    fold (expired ud x). destruct (expired ud x) eqn:Hx.
    + rewrite vfs_stamp_free_locked by done.
      assert (Hfresh : (stamp_v x, stamp_id x) ∉ stamp_key <$> kept).
      { destruct Hcase as [Hnd|[_ ->]]; [|apply not_elem_of_nil].
        rewrite fmap_app in Hnd. apply NoDup_app in Hnd as (_ & Hd & _).
        intros Hin. apply (Hd _ Hin). simpl. apply elem_of_cons. by left. }
      rewrite (vfs_rmstamp_hit kept x rest) by done.
      rewrite (IH kept); [| done | done |].
      * rewrite filter_cons_True by done. rewrite filter_cons_False by congruence.
        rewrite (freed_keys_cons x (filter _ rest)), app_assoc. by destruct st.
      * destruct Hcase as [Hnd|?]; [left|by right].
        eapply sublist_NoDup; [exact Hnd|]. apply fmap_sublist.
        apply sublist_app; [done|]. by apply sublist_cons.
    + rewrite (IH (kept ++ [x])); [| done | by rewrite <- app_assoc |].
      * rewrite filter_cons_False by congruence. rewrite filter_cons_True by done.
        by rewrite <- app_assoc.
      * destruct Hcase as [Hnd|[-> _]]; [|done]. left. by rewrite <- app_assoc.
Qed.

(** [vfs_expire] with one unit of its budget spent. *)
Lemma vfs_expire_S n now st :
  vfs_expire (S n) now st
  = if locked st then Some st
    else match g_slist_foreach (stamps st) (vfs_stamp_expire (vfs_expire n))
                 (sweep_arg now st) (set_locked true st) with
         | Some st2 => Some (set_locked false st2)
         | None => None
         end.
Proof. by destruct now. Qed.

(** A call of [vfs_expire] that finds the latch open. *)
Lemma vfs_expire_unlocked n now st :
  locked st = false → stamps_unique st ∨ now = true →
  vfs_expire (S (S n)) now st = Some (swept (sweep_arg now st) st).
Proof.
  intros Hlock Hcase. rewrite vfs_expire_S, Hlock.
  rewrite (sweep_loop n (sweep_arg now st) (stamps st) [] (set_locked true st));
    [| done | done |].
  - unfold swept. destruct st. simpl in *. by subst.
  - destruct Hcase as [Hu| ->]; [by left|by right].
Qed.

(** ** Termination: two nested calls are the most that can be in progress *)

Lemma g_slist_foreach_in_turn {A U S} (f : A → U → S → option S) ud l :
  ∀ st, g_slist_foreach l f ud st = in_turn (λ data, f data ud) l st.
Proof.
  induction l as [|x l IH]; intros st; simpl; [done|].
  destruct (f x ud st); [apply IH|done].
Qed.

Lemma foreach_total {A S} (f : A → S → option S) l :
  (∀ x st, is_Some (f x st)) → ∀ st, is_Some (in_turn f l st).
Proof.
  intros Hf. induction l as [|x l IH]; intros st; simpl; [by eexists|].
  destruct (Hf x st) as [st' ->]. apply IH.
Qed.

Lemma vfs_rmstamp_locked v id st : locked (vfs_rmstamp v id st) = locked st.
Proof. unfold vfs_rmstamp. by destruct (g_slist_find_custom _ _ _). Qed.

Lemma sweep_loop_total n ud l : ∀ st,
  locked st = true →
  ∃ st', g_slist_foreach l (vfs_stamp_expire (vfs_expire (S n))) ud st = Some st'
         ∧ locked st' = true.
Proof.
  induction l as [|x l IH]; intros st Hlock; [by exists st|].
  cbn [g_slist_foreach]. unfold vfs_stamp_expire at 1.
  destruct (match ud with None => true | Some t => timeoutcmp (stamp_time x) t end).
  - rewrite vfs_stamp_free_locked by done. apply IH.
    by rewrite vfs_rmstamp_locked.
  - by apply IH.
Qed.

Lemma vfs_expire_total n now st : is_Some (vfs_expire (S (S n)) now st).
Proof.
  rewrite vfs_expire_S. destruct (locked st) eqn:Hlock; [by eexists|].
  destruct (sweep_loop_total n (sweep_arg now st) (stamps st)
              (set_locked true st)) as (st' & -> & _); [done|by eexists].
Qed.

Lemma vfs_stamp_free_total n s ud st :
  is_Some (vfs_stamp_free (vfs_expire (S (S n))) s ud st).
Proof.
  unfold vfs_stamp_free. destruct (free _); [|by eexists].
  apply foreach_total. intros. apply vfs_expire_total.
Qed.

(** ** The traversal of [vfs_gc_done] *)

Lemma g_slist_foreach_live_cons data next func ud read st :
  g_slist_foreach_live (data :: next) func ud read st
  = if negb (link_live (data :: next) read) then
      g_slist_foreach_live next func ud read st
    else if negb (link_live (data :: next) st) then None
    else match func data ud st with
         | Some st' => g_slist_foreach_live next func ud st st'
         | None => None
         end.
Proof. reflexivity. Qed.

Lemma links_of_app data l1 l2 :
  links_of data (l1 ++ l2) = (links_of data l1 + links_of data l2)%nat.
Proof. unfold links_of. by rewrite filter_app, length_app. Qed.

(** The links behind the cursor are all there while nothing is deleted. *)
Lemma link_live_suffix pre data next st :
  stamps st = pre ++ data :: next → link_live (data :: next) st = true.
Proof.
  intros Hst. unfold link_live. rewrite Hst, links_of_app.
  apply Nat.leb_le. lia.
Qed.

(** When no [free] re-enters the sweep, no link is deleted under the
    traversal, which then visits every link. *)
Lemma gc_walk_quiet expire links : ∀ pre read st,
  stamps read = pre ++ links → stamps st = pre ++ links →
  Forall quiet_free links →
  g_slist_foreach_live links (vfs_stamp_free expire) None read st
  = Some (set_released (released st ++ freed_keys links) st).
Proof.
  induction links as [|x links IH]; intros pre read st Hread Hst Hquiet.
  - simpl. unfold freed_keys. simpl. by rewrite app_nil_r, set_released_id.
  - rewrite g_slist_foreach_live_cons.
    rewrite (link_live_suffix pre x links read Hread).
    rewrite (link_live_suffix pre x links st Hst). simpl.
    apply Forall_cons in Hquiet as [Hx Hquiet].
    unfold vfs_stamp_free at 1. rewrite (freed_keys_cons x links).
    unfold freed_keys at 1. unfold quiet_free in Hx.
    destruct (free (class_at (stamp_v x))) as [r|] eqn:Hfree.
    + unfold call_free. rewrite Hx. cbn [in_turn].
      rewrite (IH (pre ++ [x]));
        [| by rewrite <- app_assoc | by rewrite <- app_assoc | done].
      rewrite filter_cons_True by (by rewrite Hfree).
      simpl. rewrite <- app_assoc. by destruct st.
    + rewrite (IH (pre ++ [x]));
        [| by rewrite <- app_assoc | by rewrite <- app_assoc | done].
      rewrite filter_cons_False by (rewrite Hfree; by intros [? ?]).
      done.
Qed.

Lemma vfs_gc_done_quiet fuel st :
  Forall quiet_free (stamps st) →
  vfs_gc_done fuel st
  = Some (set_stamps [] (set_released (released st ++ freed_keys (stamps st)) st)).
Proof.
  intros Hquiet. unfold vfs_gc_done.
  by rewrite (gc_walk_quiet _ (stamps st) [] st st).
Qed.

(** A call of [vfs_gc_done] that has no result was made with a stamp whose
    [free] re-enters the sweep. *)
Lemma vfs_gc_done_none fuel st :
  vfs_gc_done fuel st = None → ∃ s, s ∈ stamps st ∧ ¬ quiet_free s.
Proof.
  intros Hnone. destruct (decide (Forall quiet_free (stamps st))) as [Hq|Hq].
  - by rewrite vfs_gc_done_quiet in Hnone.
  - apply not_Forall_Exists in Hq; [|apply _].
    apply Exists_exists in Hq as (s & Hs & Hns). by exists s.
Qed.

(** With two nested calls allowed, the traversal of [vfs_gc_done] has no
    result only when it holds a link that was in the list when the pointer to
    it was read and is not there any more. *)
Lemma foreach_live_none n links : ∀ read st,
  g_slist_foreach_live links (vfs_stamp_free (vfs_expire (S (S n)))) None read st
  = None →
  ∃ pre data next read' st',
    links = pre ++ data :: next
    ∧ link_live (data :: next) read' = true
    ∧ link_live (data :: next) st' = false.
Proof.
  induction links as [|x links IH]; intros read st H; [done|].
  rewrite g_slist_foreach_live_cons in H.
  destruct (link_live (x :: links) read) eqn:Hread; cbn [negb] in H.
  - destruct (link_live (x :: links) st) eqn:Hst; cbn [negb] in H.
    + destruct (vfs_stamp_free_total n x None st) as [st1 Hfree].
      rewrite Hfree in H.
      destruct (IH _ _ H) as (pre & d & nx & r' & s' & -> & H1 & H2).
      by exists (x :: pre), d, nx, r', s'.
    + by exists [], x, links, read, st.
  - destruct (IH _ _ H) as (pre & d & nx & r' & s' & -> & H1 & H2).
    by exists (x :: pre), d, nx, r', s'.
Qed.

(** Every call but [vfs_gc_done] returns, with two nested calls at most. *)
Lemma step_total n o st : o ≠ OpGcDone → is_Some (step (S (S n)) o st).
Proof.
  intros Ho. destruct o; try (by destruct Ho); try (by eexists); cbn [step].
  - apply vfs_expire_total.
  - apply vfs_expire_total.
Qed.

(** A sequence of calls has a result unless it comes to a [vfs_gc_done] that
    follows a freed link. *)
Lemma run_none n ops : ∀ st,
  run (S (S n)) ops st = None → stops_in_gc_done (S (S n)) ops st.
Proof.
  induction ops as [|o ops IH]; intros st Hrun; [done|].
  unfold run in Hrun. cbn [in_turn] in Hrun.
  destruct (step (S (S n)) o st) as [st1|] eqn:Hstep.
  - destruct (IH st1 Hrun) as (ops1 & ops2 & st2 & -> & Hrun1 & Hnone & Hs).
    exists (o :: ops1), ops2, st2. split; [done|]. split; [|done].
    unfold run. cbn [in_turn]. by rewrite Hstep.
  - assert (Ho : o = OpGcDone).
    { destruct o; try reflexivity; try discriminate; cbn [step] in Hstep;
        unfold vfs_timeout_handler in Hstep;
        match type of Hstep with
        | vfs_expire _ ?b _ = None =>
            destruct (vfs_expire_total n b st) as [x Hx]; congruence
        end. }
    subst o. exists [], ops, st. split; [done|]. split; [done|]. split; [done|].
    by eapply vfs_gc_done_none.
Qed.

(** It has one when it makes no call of [vfs_gc_done], and when no [free]
    re-enters the sweep. *)
Lemma run_defined n ops st :
  OpGcDone ∉ ops ∨ (∀ s, quiet_free s) → is_Some (run (S (S n)) ops st).
Proof.
  intros Hcase. destruct (run (S (S n)) ops st) as [st'|] eqn:Hrun; [by eexists|].
  destruct (run_none n ops st Hrun) as (ops1 & ops2 & st1 & -> & _ & _ & s & _ & Hs).
  destruct Hcase as [Hno|Hquiet]; [|by destruct Hs].
  destruct Hno. apply elem_of_app. right. by left.
Qed.

(** ** What every operation does to the stamped pairs *)

Lemma foreach_preserves {A S} (R : S → S → Prop) (f : A → S → option S) l :
  (∀ st, R st st) → (∀ a b c, R a b → R b c → R a c) →
  (∀ x st st', f x st = Some st' → R st st') →
  ∀ st st', in_turn f l st = Some st' → R st st'.
Proof.
  intros Hrefl Htrans Hf. induction l as [|x l IH]; intros st st' H.
  - injection H as <-. apply Hrefl.
  - cbn [in_turn] in H. destruct (f x st) as [st1|] eqn:Hx; [|done].
    eapply Htrans; [by eapply Hf|by apply IH].
Qed.

Lemma foreach_live_preserves (R : state → state → Prop) f ud links :
  (∀ st, R st st) → (∀ a b c, R a b → R b c → R a c) →
  (∀ x st st', f x ud st = Some st' → R st st') →
  ∀ read st st',
    g_slist_foreach_live links f ud read st = Some st' → R st st'.
Proof.
  intros Hrefl Htrans Hf. induction links as [|x links IH]; intros read st st' H.
  - injection H as <-. apply Hrefl.
  - rewrite g_slist_foreach_live_cons in H.
    destruct (negb (link_live (x :: links) read)); [by eapply IH|].
    destruct (negb (link_live (x :: links) st)); [done|].
    destruct (f x ud st) as [st1|] eqn:Hx; [|done].
    eapply Htrans; [by eapply Hf|by eapply IH].
Qed.

(** [st'] has the stamps of [st] with some links deleted. *)
Definition shrinks (st st' : state) : Prop :=
  stamps st' `sublist_of` stamps st.

Lemma shrinks_refl st : shrinks st st.
Proof. unfold shrinks. done. Qed.

Lemma shrinks_trans a b c : shrinks a b → shrinks b c → shrinks a c.
Proof. unfold shrinks. intros H1 H2. by etrans. Qed.

Lemma vfs_rmstamp_shrinks v id st : shrinks st (vfs_rmstamp v id st).
Proof.
  unfold shrinks, vfs_rmstamp.
  destruct (g_slist_find_custom _ _ _) as [link|]; [|done].
  apply sublist_delete.
Qed.

Lemma vfs_expire_shrinks fuel : ∀ now st st',
  vfs_expire fuel now st = Some st' → shrinks st st'.
Proof.
  induction fuel as [|n IH]; intros now st st' H; [done|].
  rewrite vfs_expire_S in H. destruct (locked st).
  { injection H as <-. apply shrinks_refl. }
  destruct (g_slist_foreach _ _ _) as [st2|] eqn:Hloop; [|done].
  injection H as <-.
  change (shrinks (set_locked true st) st2).
  rewrite g_slist_foreach_in_turn in Hloop.
  revert Hloop. apply foreach_preserves;
    [apply shrinks_refl|apply shrinks_trans|].
  intros x s s' Hx. unfold vfs_stamp_expire in Hx.
  destruct (match sweep_arg now st with None => true | Some _ => _ end).
  2:{ injection Hx as <-. apply shrinks_refl. }
  destruct (vfs_stamp_free _ _ _) as [s1|] eqn:Hfree; [|done].
  injection Hx as <-.
  apply shrinks_trans with s1; [|apply vfs_rmstamp_shrinks].
  unfold vfs_stamp_free in Hfree. destruct (free _) as [r|].
  2:{ injection Hfree as <-. apply shrinks_refl. }
  unfold call_free in Hfree.
  change (shrinks (set_released (released s ++ [(stamp_v x, stamp_id x)]) s) s1).
  revert Hfree. apply foreach_preserves;
    [apply shrinks_refl|apply shrinks_trans|].
  intros b a a'. apply IH.
Qed.

Lemma vfs_stamp_keys v id st : keys (vfs_stamp v id st).2 = keys st.
Proof.
  unfold vfs_stamp, keys.
  destruct (g_slist_find_custom _ _ _) as [[i s]|] eqn:Hf; [|done].
  destruct (find_some_inv _ _ _ _ _ Hf) as (l1 & l2 & Hl & <- & Hs & _).
  simpl. rewrite Hl, insert_app_r_alt, Nat.sub_diag by done. simpl.
  by rewrite !fmap_app.
Qed.

Lemma vfs_stamp_found v id st :
  (vfs_stamp v id st).1 = bool_decide ((v, id) ∈ keys st).
Proof.
  destruct (decide ((v, id) ∈ keys st)) as [Hin|Hin].
  - rewrite bool_decide_eq_true_2 by done.
    destruct (key_split _ _ _ Hin) as (l1 & s & l2 & Hl & Hs & Hl1).
    by rewrite (vfs_stamp_hit l1 s l2).
  - rewrite bool_decide_eq_false_2 by done. by rewrite vfs_stamp_miss.
Qed.

(** [vfs_addstamp] refreshes or leaves the list, or appends a stamp. *)
Lemma vfs_addstamp_cases v id st :
  keys (vfs_addstamp v id st) = keys st
  ∨ (vfs_addstamp v id st
       = set_stamps (stamps st ++ [Stamping v id (clock st)]) st
     ∧ ((v, id) ∉ keys st) ∧ is_local v = false ∧ id ≠ 0%N).
Proof.
  unfold vfs_addstamp, is_local.
  destruct (Z.land _ _ =? 0) eqn:Hflag; [|by left].
  destruct (N.eqb_spec id 0) as [->|Hid]; [by left|]. simpl.
  destruct (decide ((v, id) ∈ keys st)) as [Hin|Hin].
  - left. pose proof (vfs_stamp_found v id st) as Hf.
    pose proof (vfs_stamp_keys v id st) as Hk.
    rewrite bool_decide_eq_true_2 in Hf by done.
    destruct (vfs_stamp v id st) as [found st1]. simpl in *. by subst.
  - right. rewrite vfs_stamp_miss by done. done.
Qed.

Lemma keys_sublist st st' : shrinks st st' → keys st' `sublist_of` keys st.
Proof. intros H. by apply fmap_sublist. Qed.

Section preserved.
Variable P : list (class_ptr * vfsid) → Prop.
Hypothesis HP : registry_property P.

Lemma shrinks_preserves st st' : shrinks st st' → P (keys st) → P (keys st').
Proof. intros H. apply (proj1 HP). by apply keys_sublist. Qed.

Lemma vfs_addstamp_preserves v id st :
  P (keys st) → P (keys (vfs_addstamp v id st)).
Proof.
  intros H.
  destruct (vfs_addstamp_cases v id st) as [->|(-> & Hk & Hl & Hi)]; [done|].
  unfold keys. simpl. rewrite fmap_app. simpl. by apply (proj2 HP).
Qed.

Lemma vfs_stamp_create_preserves vclass id st :
  P (keys st) → P (keys (vfs_stamp_create vclass id st)).
Proof.
  intros H. unfold vfs_stamp_create. destruct (listener st) as [h|]; [|done].
  assert (H1 : P (keys (vfs_rmstamp (path_class (current_dir st))
                          (path_id (current_dir st)) st)))
    by (eapply shrinks_preserves; [apply vfs_rmstamp_shrinks|done]).
  destruct (negb _); [|done].
  destruct (_ && _); [|done].
  by apply vfs_addstamp_preserves.
Qed.

Lemma step_preserves fuel o st st' :
  step fuel o st = Some st' → P (keys st) → P (keys st').
Proof.
  destruct o; cbn [step]; intros Hs H; try (injection Hs as <-; exact H).
  - injection Hs as <-. by rewrite vfs_stamp_keys.
  - injection Hs as <-. eapply shrinks_preserves; [apply vfs_rmstamp_shrinks|done].
  - injection Hs as <-. by apply vfs_addstamp_preserves.
  - injection Hs as <-. by apply vfs_stamp_create_preserves.
  - eapply shrinks_preserves; [by eapply vfs_expire_shrinks|done].
  - eapply shrinks_preserves; [by eapply vfs_expire_shrinks|done].
  - injection Hs as <-. by apply vfs_stamp_create_preserves.
  - unfold vfs_gc_done in Hs.
    destruct (g_slist_foreach_live _ _ _ _ _); [|done].
    injection Hs as <-. apply (proj1 HP (keys st)); [|done].
    apply sublist_nil_l.
Qed.

Lemma run_preserves fuel ops : ∀ st st',
  run fuel ops st = Some st' → P (keys st) → P (keys st').
Proof.
  induction ops as [|o ops IH]; intros st st' Hrun H.
  - by injection Hrun as <-.
  - unfold run in Hrun. cbn [in_turn] in Hrun.
    destruct (step fuel o st) as [st1|] eqn:Hstep; [|done].
    apply (IH st1); [done|]. by eapply step_preserves.
Qed.
End preserved.

Lemma unique_registry_property : registry_property NoDup.
Proof.
  split.
  - intros k k' Hsub Hk. by eapply sublist_NoDup.
  - intros k v id Hfresh _ _ Hk. apply NoDup_app. split_and!; [done| |].
    + intros x Hx ->%list_elem_of_singleton. done.
    + apply NoDup_singleton.
Qed.

Lemma remote_registry_property :
  registry_property (Forall (λ k, is_local k.1 = false ∧ k.2 ≠ 0%N)).
Proof.
  split.
  - intros k k' Hsub Hk. apply Forall_forall. intros x Hx.
    rewrite Forall_forall in Hk. apply Hk. by eapply elem_of_sublist.
  - intros k v id _ Hl Hi Hk. apply Forall_app. split; [done|].
    by apply Forall_singleton.
Qed.

Lemma stamps_remote_keys st :
  stamps_remote st ↔ Forall (λ k, is_local k.1 = false ∧ k.2 ≠ 0%N) (keys st).
Proof. unfold stamps_remote, keys. by rewrite Forall_fmap. Qed.

(** ** The sweep *)

Lemma timeoutcmp_le t1 t2 : timeoutcmp t1 t2 = true ↔ timeval_le t1 t2.
Proof.
  unfold timeoutcmp, timeval_le.
  rewrite orb_true_iff, andb_true_iff, Z.ltb_lt, Z.eqb_eq, Z.leb_le. done.
Qed.

Lemma swept_cutoff_stamps st :
  stamps (swept (Some (cutoff st)) st)
  = filter (λ s, ¬ timeval_le (stamp_time s) (cutoff st)) (stamps st).
Proof.
  unfold swept. simpl. apply list_filter_iff. intros s.
  rewrite <- timeoutcmp_le. by destruct (timeoutcmp _ _).
Qed.

Lemma swept_cutoff_released st :
  released (swept (Some (cutoff st)) st)
  = released st
    ++ freed_keys (filter (λ s, timeval_le (stamp_time s) (cutoff st)) (stamps st)).
Proof.
  unfold swept. simpl. do 2 f_equal. apply list_filter_iff. intros s.
  by rewrite <- timeoutcmp_le.
Qed.

Lemma swept_forced st :
  swept None st = set_released (released st ++ freed_keys (stamps st))
                    (set_stamps [] st).
Proof.
  unfold swept. f_equal.
  - do 2 f_equal. induction (stamps st) as [|x l IH]; [done|].
    rewrite filter_cons_True by done. by rewrite IH.
  - f_equal. induction (stamps st) as [|x l IH]; [done|].
    by rewrite filter_cons_False by done.
Qed.

(** With at most one stamp per pair, a pair names its stamp. *)
Lemma unique_key_inj l s s' :
  NoDup (stamp_key <$> l) → s ∈ l → s' ∈ l → stamp_key s = stamp_key s' → s = s'.
Proof.
  intros Hnd (i & Hi)%list_elem_of_lookup (j & Hj)%list_elem_of_lookup Hk.
  assert (i = j) as ->.
  { eapply (NoDup_lookup _ i j (stamp_key s) Hnd);
      rewrite list_lookup_fmap; [by rewrite Hi|by rewrite Hj, Hk]. }
  congruence.
Qed.

Lemma count_freed_keys v id l :
  count_calls v id (freed_keys l)
  = match free (class_at v) with
    | Some _ => count_stamps v id l
    | None => 0%nat
    end.
Proof.
  unfold count_calls, count_stamps, freed_keys.
  induction l as [|x l IH]; [by destruct (free _)|].
  rewrite (filter_cons (λ s, is_Some _)), (filter_cons (λ s, stamp_key s = _)).
  destruct (decide (stamp_key x = (v, id))) as [Hx|Hx].
  - injection Hx as Hv Hi. rewrite Hv.
    destruct (free (class_at v)) as [r|] eqn:Hfree.
    + rewrite decide_True by done. cbn [fmap list_fmap].
      rewrite filter_cons_True by (unfold stamp_key; congruence).
      simpl. by rewrite IH.
    + rewrite decide_False by (by intros [? ?]). exact IH.
  - case_decide; [|exact IH]. cbn [fmap list_fmap].
    rewrite filter_cons_False by done. exact IH.
Qed.

(** C1: a sweep that is not forced, started with the latch open on a registry
    with at most one stamp per pair, returns; the stamps it leaves are exactly
    those whose time is later than the cutoff [clock - vfs_timeout], unchanged
    and in their order; a stamp whose time is earlier than or equal to the
    cutoff is removed, and [free] is called for it when its class has one.
    With a timeout of 60 a stamp of time T stays while the clock is at most 59
    whole seconds past T and goes once the clock has reached T + 60 s; in
    microseconds, a stamp stays exactly when its age is less than the
    timeout. *)
Theorem C1_sweep_expires_by_cutoff n st :
  locked st = false → stamps_unique st →
  ∃ st', vfs_expire (S (S n)) false st = Some st'
    ∧ stamps st'
      = filter (λ s, ¬ timeval_le (stamp_time s) (cutoff st)) (stamps st)
    ∧ released st'
      = released st
        ++ freed_keys
             (filter (λ s, timeval_le (stamp_time s) (cutoff st)) (stamps st))
    ∧ (∀ s, s ∈ stamps st →
         (s ∉ stamps st' ↔ timeval_le (stamp_time s) (cutoff st))
         ∧ (is_Some (free (class_at (stamp_v s))) →
            (count_calls (stamp_v s) (stamp_id s) (released st')
               = S (count_calls (stamp_v s) (stamp_id s) (released st))
             ↔ timeval_le (stamp_time s) (cutoff st))
            ∧ (count_calls (stamp_v s) (stamp_id s) (released st')
               = count_calls (stamp_v s) (stamp_id s) (released st)
             ↔ ¬ timeval_le (stamp_time s) (cutoff st)))
         ∧ (vfs_timeout st = 60 →
            (tv_sec (clock st) - tv_sec (stamp_time s) ≤ 59 → s ∈ stamps st')
            ∧ (timeval_le (Timeval (tv_sec (stamp_time s) + 60)
                                   (tv_usec (stamp_time s))) (clock st) →
               s ∉ stamps st'))
         ∧ (timeval_normal (stamp_time s) → timeval_normal (clock st) →
            (s ∈ stamps st'
             ↔ timeval_usec (clock st) - timeval_usec (stamp_time s)
               < vfs_timeout st * 1000000))).
Proof.
  intros Hlock Huniq. exists (swept (Some (cutoff st)) st).
  split; [by apply (vfs_expire_unlocked n false); [|left]|].
  split; [apply swept_cutoff_stamps|]. split; [apply swept_cutoff_released|].
  intros s Hs. rewrite swept_cutoff_stamps, swept_cutoff_released.
  assert (Hmem : s ∉ filter (λ s, ¬ timeval_le (stamp_time s) (cutoff st))
                       (stamps st)
                 ↔ timeval_le (stamp_time s) (cutoff st)).
  { rewrite list_elem_of_filter. split.
    - intros Hn. destruct (decide (timeval_le (stamp_time s) (cutoff st)));
        [done|]. by destruct Hn.
    - intros Hle [Hn _]. done. }
  split; [exact Hmem|]. split.
  - intros Hfree. unfold count_calls at 1 3.
    rewrite !filter_app, !length_app.
    fold (count_calls (stamp_v s) (stamp_id s) (released st)).
    fold (count_calls (stamp_v s) (stamp_id s)
            (freed_keys (filter (λ s, timeval_le (stamp_time s) (cutoff st))
                           (stamps st)))).
    rewrite count_freed_keys. destruct Hfree as [r ->].
    assert (Hcount : count_stamps (stamp_v s) (stamp_id s)
              (filter (λ s, timeval_le (stamp_time s) (cutoff st)) (stamps st))
            = if decide (timeval_le (stamp_time s) (cutoff st)) then 1%nat
              else 0%nat).
    { unfold count_stamps. rewrite list_filter_filter.
      destruct (list_elem_of_split _ _ Hs) as (l1 & l2 & Hl).
      assert (Hother : ∀ l, (∀ x, x ∈ l → stamp_key x ≠ stamp_key s) →
                filter (λ x, stamp_key x = (stamp_v s, stamp_id s)
                             ∧ timeval_le (stamp_time x) (cutoff st)) l = []).
      { intros l Hl'. induction l as [|x l IH]; [done|].
        rewrite filter_cons_False.
        - apply IH. intros y Hy. apply Hl'. by right.
        - intros [Hk _]. apply (Hl' x); [by left|done]. }
      unfold stamps_unique in Huniq. rewrite Hl, fmap_app in Huniq.
      apply NoDup_app in Huniq as (_ & Hd & Hnd). simpl in Hnd.
      apply NoDup_cons in Hnd as [Hnot _].
      rewrite Hl, filter_app, filter_cons.
      rewrite (Hother l1), (Hother l2).
      - destruct (decide (timeval_le (stamp_time s) (cutoff st))) as [Hle|Hle].
        + by rewrite decide_True.
        + by rewrite decide_False by (by intros [_ ?]).
      - intros x Hx Hk. apply Hnot. rewrite <- Hk. by apply list_elem_of_fmap_2.
      - intros x Hx Hk. apply (Hd (stamp_key x)); [by apply list_elem_of_fmap_2|].
        rewrite Hk. simpl. by left. }
    rewrite Hcount.
    destruct (decide (timeval_le (stamp_time s) (cutoff st))); split; split;
      intros; try done; lia.
  - split.
    + intros Hto. rewrite list_elem_of_filter. unfold timeval_le, cutoff in *.
      rewrite Hto. simpl. split.
      * intros Hd. split; [lia|done].
      * intros Hle [Hn _]. apply Hn. simpl in Hle. lia.
    + intros Hs_n Hc_n. rewrite list_elem_of_filter.
      unfold timeval_le, cutoff, timeval_usec, timeval_normal in *. simpl.
      split; [intros [Hn _]; lia|]. intros Hage. split; [lia|done].
Qed.

(** C3: a forced sweep started with the latch open returns, leaves no stamp
    and nothing else changed but the trace of releases, to which it appends
    one call of [free] for each stamp that was in the list and whose class has
    a [free], whatever the times of the stamps; when every stamped class has a
    [free] these calls are the stamped pairs, one for one and in order. *)
Theorem C3_forced_sweep_empties_registry n st :
  locked st = false →
  ∃ st', vfs_expire (S (S n)) true st = Some st'
    ∧ stamps st' = []
    ∧ st' = set_released (released st ++ freed_keys (stamps st))
              (set_stamps [] st)
    ∧ (∀ v id, is_Some (free (class_at v)) →
         count_calls v id (released st')
         = (count_calls v id (released st) + count_stamps v id (stamps st))%nat)
    ∧ ((∀ s, s ∈ stamps st → is_Some (free (class_at (stamp_v s)))) →
       released st' = released st ++ keys st).
Proof.
  intros Hlock. eexists. split.
  { rewrite (vfs_expire_unlocked n true); [|done|by right].
    unfold sweep_arg. by rewrite swept_forced. }
  split; [done|]. split; [done|]. split.
  - intros v id [r Hr]. simpl. unfold count_calls at 1.
    rewrite filter_app, length_app.
    fold (count_calls v id (released st)).
    fold (count_calls v id (freed_keys (stamps st))).
    by rewrite count_freed_keys, Hr.
  - intros Hall. simpl. f_equal. unfold freed_keys, keys. f_equal.
    induction (stamps st) as [|x l IH]; [done|].
    rewrite filter_cons_True by (apply Hall; by left).
    f_equal. apply IH. intros s Hs. apply Hall. by right.
Qed.

(** C4: while a sweep is in progress (the latch is set) a call of
    [vfs_expire] returns the state it was given, and a [free] callback that
    makes such calls leaves nothing but the record of its own call.  A sweep
    started with the latch open on a registry with at most one stamp per pair
    therefore returns with two levels of calls at most, whatever the callbacks
    re-enter; it calls [free] at most once per pair, only deletes links, and
    leaves the latch open, so that the next sweep runs as usual. *)
Theorem C4_nested_sweep_is_inert n now st :
  locked st = false → stamps_unique st →
  (∀ m now' st1,
     vfs_expire (S m) now' (set_locked true st1) = Some (set_locked true st1))
  ∧ (∀ m reenters v id st1,
       call_free (vfs_expire (S m)) reenters v id (set_locked true st1)
       = Some (set_released (released st1 ++ [(v, id)]) (set_locked true st1)))
  ∧ ∃ st', vfs_expire (S (S n)) now st = Some st'
      ∧ st' = swept (sweep_arg now st) st
      ∧ locked st' = false
      ∧ (∃ calls, released st' = released st ++ calls ∧ NoDup calls
                  ∧ calls `sublist_of` keys st)
      ∧ stamps st' `sublist_of` stamps st
      ∧ (∀ now2, vfs_expire (S (S n)) now2 st'
                 = Some (swept (sweep_arg now2 st') st')).
Proof.
  intros Hlock Huniq. split; [intros; by apply vfs_expire_locked|].
  split; [intros; by rewrite call_free_locked|].
  exists (swept (sweep_arg now st) st).
  split; [by apply vfs_expire_unlocked; [|left]|]. split; [done|].
  split; [done|].
  assert (Hsub : stamps (swept (sweep_arg now st) st) `sublist_of` stamps st)
    by apply sublist_filter.
  split; [|split; [done|]].
  - eexists. split; [reflexivity|].
    assert (Hcalls : freed_keys (filter (λ s, expired (sweep_arg now st) s = true)
                                   (stamps st)) `sublist_of` keys st).
    { unfold freed_keys, keys. apply fmap_sublist.
      etrans; apply sublist_filter. }
    split; [|done]. by eapply sublist_NoDup.
  - intros now2. apply vfs_expire_unlocked; [done|]. left.
    unfold stamps_unique. eapply sublist_NoDup; [exact Huniq|].
    by apply fmap_sublist.
Qed.

(** ** Touching, removing and creating a stamp *)

Lemma count_zero l v id :
  (v, id) ∉ stamp_key <$> l → count_stamps v id l = 0%nat.
Proof.
  intros Hnot. unfold count_stamps. induction l as [|x l IH]; [done|].
  rewrite filter_cons_False.
  - apply IH. intros Hin. apply Hnot. simpl. by right.
  - intros Hx. apply Hnot. simpl. rewrite Hx. by left.
Qed.

Lemma count_one l v id :
  NoDup (stamp_key <$> l) → (v, id) ∈ stamp_key <$> l →
  count_stamps v id l = 1%nat.
Proof.
  intros Hnd Hin. destruct (key_split _ _ _ Hin) as (l1 & s & l2 & -> & Hs & Hl1).
  rewrite fmap_app in Hnd. apply NoDup_app in Hnd as (_ & _ & Hnd).
  simpl in Hnd. apply NoDup_cons in Hnd as [Hl2 _]. rewrite Hs in Hl2.
  unfold count_stamps. rewrite filter_app, length_app, filter_cons_True by done.
  fold (count_stamps v id l1). simpl. fold (count_stamps v id l2).
  rewrite !count_zero by done. done.
Qed.

Lemma vfs_stamp_frame v id st :
  (vfs_stamp v id st).2 = set_stamps (stamps (vfs_stamp v id st).2) st.
Proof.
  unfold vfs_stamp. destruct (g_slist_find_custom _ _ _) as [[i s]|]; [done|].
  by destruct st.
Qed.

Lemma vfs_rmstamp_frame v id st :
  vfs_rmstamp v id st = set_stamps (stamps (vfs_rmstamp v id st)) st.
Proof.
  unfold vfs_rmstamp. destruct (g_slist_find_custom _ _ _) as [link|]; [done|].
  by destruct st.
Qed.

(** [vfs_addstamp] on a class that is not local and an id that is not NULL. *)
Lemma vfs_addstamp_remote v id st :
  is_local v = false → id ≠ 0%N →
  vfs_addstamp v id st
  = if bool_decide ((v, id) ∈ keys st) then (vfs_stamp v id st).2
    else set_stamps (stamps st ++ [Stamping v id (clock st)]) st.
Proof.
  intros Hl Hi. unfold vfs_addstamp, is_local in *.
  apply negb_false_iff in Hl. rewrite Hl.
  apply N.eqb_neq in Hi. rewrite Hi. simpl.
  pose proof (vfs_stamp_found v id st) as Hf.
  destruct (vfs_stamp v id st) as [found st1] eqn:Hst. simpl in Hf. subst found.
  case_bool_decide as Hin; simpl; [done|].
  rewrite vfs_stamp_miss in Hst by done. by injection Hst as <-.
Qed.

Lemma vfs_addstamp_frame v id st :
  vfs_addstamp v id st = set_stamps (stamps (vfs_addstamp v id st)) st.
Proof.
  unfold vfs_addstamp. destruct (_ =? 0); [|by destruct st].
  destruct (negb _); [|by destruct st].
  pose proof (vfs_stamp_frame v id st) as Hf.
  destruct (vfs_stamp v id st) as [found st1]. simpl in Hf.
  destruct found; simpl; [done|]. rewrite Hf. by destruct st.
Qed.

Lemma vfs_addstamp_member v id st :
  is_local v = false → id ≠ 0%N → (v, id) ∈ keys (vfs_addstamp v id st).
Proof.
  intros Hl Hi. rewrite vfs_addstamp_remote by done.
  case_bool_decide as Hin; [by rewrite vfs_stamp_keys|].
  unfold keys. simpl. rewrite fmap_app. apply elem_of_app. right.
  simpl. by left.
Qed.

Lemma vfs_addstamp_count v id st :
  is_local v = false → id ≠ 0%N → stamps_unique st →
  stamps_unique (vfs_addstamp v id st)
  ∧ count_stamps v id (stamps (vfs_addstamp v id st)) = 1%nat.
Proof.
  intros Hl Hi Hu.
  assert (Hu' : stamps_unique (vfs_addstamp v id st))
    by (by apply (vfs_addstamp_preserves NoDup unique_registry_property)).
  split; [done|]. apply count_one; [done|]. by apply vfs_addstamp_member.
Qed.

(** The conditions under which [vfs_stamp_create] reaches [vfs_addstamp]. *)
Lemma vfs_stamp_create_reaches vclass id st h f :
  listener st = Some h → h vclass id = false → vclass ≠ 0%N → id ≠ 0%N →
  nothingisopen (class_at vclass) = Some f → f id ≠ 0 →
  (path_class (current_dir st), path_id (current_dir st)) ≠ (vclass, id) →
  vfs_stamp_create vclass id st
  = vfs_addstamp vclass id
      (vfs_rmstamp (path_class (current_dir st)) (path_id (current_dir st)) st).
Proof.
  intros Hh Hret Hv Hi Hf Hopen Hcur. unfold vfs_stamp_create.
  rewrite Hh, Hret, Hf.
  apply N.eqb_neq in Hv, Hi. rewrite Hv, Hi. apply Z.eqb_neq in Hopen.
  rewrite Hopen. simpl.
  destruct (N.eqb_spec (path_class (current_dir st)) vclass) as [Hc|Hc];
    destruct (N.eqb_spec (path_id (current_dir st)) id) as [Hp|Hp];
    simpl; try done.
  destruct Hcur. by rewrite Hc, Hp.
Qed.

(** C2: started on a registry with at most one stamp per pair, every
    sequence of calls of the public functions (and of changes of the clock,
    the current directory, the listener and the timeout) leaves at most one
    stamp per pair in the state it returns.  The sequence does return a
    state, with two nested calls at most, unless it comes to a [vfs_gc_done]
    whose traversal follows a link that a re-entering [free] has freed, which
    is undefined in C; in particular it returns when it does not call
    [vfs_gc_done] and when no [free] re-enters the sweep.  From the state it
    reaches, reaching [vfs_addstamp] twice for one pair of a class that is
    not local and an id that is not NULL, be it directly, through
    [vfs_stamp_path] or through [vfs_stamp_create], leaves exactly one stamp
    of that pair. *)
Theorem C2_one_stamp_per_pair n ops st :
  stamps_unique st →
  (run (S (S n)) ops st = None → stops_in_gc_done (S (S n)) ops st)
  ∧ (OpGcDone ∉ ops ∨ (∀ s, quiet_free s) →
     ∃ st', run (S (S n)) ops st = Some st')
  ∧ ∀ st', run (S (S n)) ops st = Some st' →
    stamps_unique st'
    ∧ ∀ v id t, is_local v = false → id ≠ 0%N →
        count_stamps v id
          (stamps (vfs_addstamp v id (set_clock t (vfs_addstamp v id st'))))
        = 1%nat
        ∧ (∀ path, vfs_path_from_str path = VfsPath v id →
             count_stamps v id
               (stamps (vfs_stamp_path path
                          (set_clock t (vfs_stamp_path path st'))))
             = 1%nat)
        ∧ (∀ h f, listener st' = Some h → h v id = false → v ≠ 0%N →
             nothingisopen (class_at v) = Some f → f id ≠ 0 →
             (path_class (current_dir st'), path_id (current_dir st')) ≠ (v, id) →
             count_stamps v id
               (stamps (vfs_stamp_create v id
                          (set_clock t (vfs_stamp_create v id st'))))
             = 1%nat).
Proof.
  intros Hu. split; [apply run_none|]. split; [apply run_defined|].
  intros st' Hrun.
  assert (Hu' : stamps_unique st')
    by (by eapply (run_preserves NoDup unique_registry_property)).
  split; [done|]. intros v id t Hl Hi.
  assert (Htwice : ∀ s, stamps_unique s →
            count_stamps v id
              (stamps (vfs_addstamp v id (set_clock t (vfs_addstamp v id s))))
            = 1%nat).
  { intros s Hs. apply vfs_addstamp_count; [done|done|].
    by apply (vfs_addstamp_count v id s). }
  split; [by apply Htwice|]. split.
  - intros path Hpath. unfold vfs_stamp_path. rewrite Hpath. simpl.
    by apply Htwice.
  - intros h f Hh Hret Hv Hf Hopen Hcur.
    rewrite (vfs_stamp_create_reaches v id st' h f) by done.
    set (cv := path_class (current_dir st')) in *.
    set (ci := path_id (current_dir st')) in *.
    assert (H1 : stamps_unique (vfs_addstamp v id (vfs_rmstamp cv ci st'))).
    { apply vfs_addstamp_count; [done|done|].
      eapply (shrinks_preserves NoDup unique_registry_property);
        [apply vfs_rmstamp_shrinks|done]. }
    rewrite (vfs_stamp_create_reaches v id _ h f); try done.
    + apply vfs_addstamp_count; [done|done|].
      eapply (shrinks_preserves NoDup unique_registry_property);
        [apply vfs_rmstamp_shrinks|done].
    + rewrite vfs_addstamp_frame, vfs_rmstamp_frame. done.
    + rewrite vfs_addstamp_frame, vfs_rmstamp_frame. done.
Qed.

(** C9: started on a registry without a stamp of a local class (the empty
    registry of program start is one), every sequence of calls of the public
    functions leaves no stamp of a local class in the state it returns.  The
    sequence does return a state, with two nested calls at most, unless it
    comes to a [vfs_gc_done] whose traversal follows a link that a
    re-entering [free] has freed, which is undefined in C; in particular it
    returns when it does not call [vfs_gc_done] and when no [free] re-enters
    the sweep. *)
Theorem C9_local_classes_never_stamped n ops st :
  (∀ s, s ∈ stamps st → is_local (stamp_v s) = false) →
  (run (S (S n)) ops st = None → stops_in_gc_done (S (S n)) ops st)
  ∧ (OpGcDone ∉ ops ∨ (∀ s, quiet_free s) →
     ∃ st', run (S (S n)) ops st = Some st')
  ∧ ∀ st', run (S (S n)) ops st = Some st' →
    ∀ s, s ∈ stamps st' → is_local (stamp_v s) = false.
Proof.
  intros Hst. split; [apply run_none|]. split; [apply run_defined|].
  intros st' Hrun.
  assert (HP : registry_property (Forall (λ k, is_local k.1 = false))).
  { split.
    - intros k k' Hsub Hk. apply Forall_forall. intros x Hx.
      rewrite Forall_forall in Hk. apply Hk. by eapply elem_of_sublist.
    - intros k v id _ Hl _ Hk. apply Forall_app. split; [done|].
      by apply Forall_singleton. }
  assert (Hk : Forall (λ k, is_local k.1 = false) (keys st')).
  { eapply (run_preserves _ HP); [exact Hrun|].
    unfold keys. apply Forall_fmap, Forall_forall. exact Hst. }
  unfold keys in Hk. rewrite Forall_fmap, Forall_forall in Hk. exact Hk.
Qed.

(** The stamps of every state reached from program start belong to classes
    that are not local and have ids that are not NULL. *)
Lemma run_keeps_remote fuel ops st st' :
  run fuel ops st = Some st' → stamps_remote st → stamps_remote st'.
Proof.
  rewrite !stamps_remote_keys.
  apply (run_preserves _ remote_registry_property).
Qed.

Lemma vfs_stamp_length v id st :
  length (stamps (vfs_stamp v id st).2) = length (stamps st).
Proof.
  rewrite <- (length_fmap stamp_key (stamps (vfs_stamp v id st).2)).
  fold (keys (vfs_stamp v id st).2). rewrite vfs_stamp_keys.
  apply length_fmap.
Qed.

(** [vfs_stamp] leaves the stamps of the other pairs where and as they are. *)
Lemma vfs_stamp_others v id st i s :
  stamps st !! i = Some s → stamp_key s ≠ (v, id) →
  stamps (vfs_stamp v id st).2 !! i = Some s.
Proof.
  intros Hi Hs. destruct (decide ((v, id) ∈ keys st)) as [Hin|Hin].
  - destruct (key_split _ _ _ Hin) as (l1 & s0 & l2 & Hl & Hs0 & Hl1).
    rewrite (vfs_stamp_hit l1 s0 l2) by done. simpl.
    rewrite Hl in Hi. apply lookup_app_Some in Hi as [Hi|[Hlen Hi]].
    + by apply lookup_app_l_Some.
    + apply lookup_app_Some. right. split; [done|].
      destruct (i - length l1)%nat as [|j]; [|done].
      simpl in Hi. injection Hi as <-. done.
  - by rewrite vfs_stamp_miss.
Qed.

(** After [vfs_stamp] the first stamp of the pair has the time of the clock. *)
Lemma vfs_stamp_time v id st :
  (v, id) ∈ keys st →
  stamp_time_of v id (stamps (vfs_stamp v id st).2) = Some (clock st).
Proof.
  intros Hin. destruct (key_split _ _ _ Hin) as (l1 & s0 & l2 & Hl & Hs0 & Hl1).
  rewrite (vfs_stamp_hit l1 s0 l2) by done. simpl.
  unfold stamp_time_of. by rewrite find_hit.
Qed.

Lemma count_stamps_keys v id l :
  count_stamps v id l = length (filter (λ k, k = (v, id)) (stamp_key <$> l)).
Proof.
  unfold count_stamps. induction l as [|x l IH]; [done|].
  cbn [fmap list_fmap]. rewrite !filter_cons.
  destruct (decide (stamp_key x = (v, id))); simpl; by rewrite IH.
Qed.

(** ** The latch between calls *)

Lemma vfs_expire_latch fuel now st st' :
  vfs_expire fuel now st = Some st' → locked st' = locked st.
Proof.
  destruct fuel as [|n]; [done|]. rewrite vfs_expire_S.
  destruct (locked st) eqn:Hlock; [by intros [= <-]|].
  destruct (g_slist_foreach _ _ _ _); [|done]. by intros [= <-].
Qed.

Lemma vfs_stamp_free_latch fuel s ud st st' :
  vfs_stamp_free (vfs_expire fuel) s ud st = Some st' → locked st' = locked st.
Proof.
  unfold vfs_stamp_free, call_free. destruct (free _) as [r|]; [|by intros [= <-]].
  intros H.
  change (locked st' = locked (set_released (released st ++ [stamp_key s]) st)).
  revert H. apply (foreach_preserves (λ a b, locked b = locked a)); [done| |].
  - intros a b c Hab Hbc. by rewrite Hbc.
  - intros b a a'. apply vfs_expire_latch.
Qed.

Lemma vfs_stamp_create_frame vclass id st :
  vfs_stamp_create vclass id st
  = set_stamps (stamps (vfs_stamp_create vclass id st)) st.
Proof.
  unfold vfs_stamp_create. destruct (listener st); [|by destruct st].
  destruct (negb _); [|apply vfs_rmstamp_frame].
  destruct (_ && _); [|apply vfs_rmstamp_frame].
  rewrite vfs_addstamp_frame. rewrite vfs_rmstamp_frame at 2. by destruct st.
Qed.

Lemma step_latch fuel o st st' :
  step fuel o st = Some st' → locked st' = locked st.
Proof.
  destruct o; cbn [step]; intros Hs; try (by injection Hs as <-).
  - injection Hs as <-. by rewrite vfs_stamp_frame.
  - injection Hs as <-. by rewrite vfs_rmstamp_frame.
  - injection Hs as <-. unfold vfs_stamp_path. by rewrite vfs_addstamp_frame.
  - injection Hs as <-. by rewrite vfs_stamp_create_frame.
  - by eapply vfs_expire_latch.
  - by eapply vfs_expire_latch.
  - injection Hs as <-. unfold vfs_release_path.
    by rewrite vfs_stamp_create_frame.
  - unfold vfs_gc_done in Hs.
    destruct (g_slist_foreach_live _ _ _ _ _) as [st1|] eqn:Hloop; [|done].
    injection Hs as <-. change (locked st1 = locked st).
    revert Hloop.
    apply (foreach_live_preserves (λ a b, locked b = locked a)); [done| |].
    + intros a b c Hab Hbc. by rewrite Hbc.
    + intros x a a'. apply vfs_stamp_free_latch.
Qed.

Lemma run_latch fuel ops st st' :
  run fuel ops st = Some st' → locked st' = locked st.
Proof.
  apply (foreach_preserves (λ a b, locked b = locked a)); [done| |].
  - intros a b c Hab Hbc. by rewrite Hbc.
  - intros o a a'. apply step_latch.
Qed.

(** What the theorems below ask of a state holds of every state the program
    reaches from its start. *)
Lemma reachable_invariants st :
  reachable st → locked st = false ∧ stamps_unique st ∧ stamps_remote st.
Proof.
  intros (fuel & ops & t & cwd & h & Hrun). split; [|split].
  - by rewrite (run_latch _ _ _ _ Hrun).
  - apply (run_preserves NoDup unique_registry_property _ _ _ _ Hrun).
    apply NoDup_nil_2.
  - apply (run_keeps_remote _ _ _ _ Hrun). apply Forall_nil_2.
Qed.

(** C5: without a listener of "vfs_timestamp", [vfs_stamp_create] returns the
    state it was given, whatever its arguments: no stamp is removed or added,
    nothing is released, no event is raised. *)
Theorem C5_stamp_create_inert_without_listener vclass id st :
  listener st = None → vfs_stamp_create vclass id st = st.
Proof. intros H. unfold vfs_stamp_create. by rewrite H. Qed.

(** C6, as the code has it: without a listener of "vfs_timestamp", neither
    the call for the directory that was left, (A, S1), nor a call for the one
    that was entered, (B, S2), changes the registry: a stamp of S1 stays as it
    is, no stamp of S1 is created, and [free] is not called. *)
Theorem C6_no_listener_keeps_stamp A S1 B S2 st :
  listener st = None →
  ∀ st', st' = vfs_stamp_create A S1 st ∨ st' = vfs_stamp_create B S2 st
         ∨ st' = vfs_release_path (VfsPath A S1) st →
    stamps st' = stamps st
    ∧ released st' = released st
    ∧ count_stamps A S1 (stamps st') = count_stamps A S1 (stamps st)
    ∧ stamp_time_of A S1 (stamps st') = stamp_time_of A S1 (stamps st).
Proof.
  intros H st' Hst'.
  assert (st' = st) as ->; [|done].
  unfold vfs_release_path, vfs_stamp_create in Hst'. rewrite H in Hst'.
  by destruct Hst' as [->|[->| ->]].
Qed.

(** C7: [vfs_stamp] changes nothing but the list of stamps, and in it only
    times: the pairs, their order and their number stay, and a stamp of
    another pair stays as it is.  For a pair that has a stamp it returns true
    and the first stamp of the pair, the only one in a registry with at most
    one stamp per pair, has the time of the clock; for a pair without a stamp
    it returns false and the state it was given. *)
Theorem C7_touch_refreshes_in_place v id st :
  (vfs_stamp v id st).2 = set_stamps (stamps (vfs_stamp v id st).2) st
  ∧ keys (vfs_stamp v id st).2 = keys st
  ∧ length (stamps (vfs_stamp v id st).2) = length (stamps st)
  ∧ (∀ i s, stamps st !! i = Some s → stamp_key s ≠ (v, id) →
            stamps (vfs_stamp v id st).2 !! i = Some s)
  ∧ ((v, id) ∈ keys st →
     (vfs_stamp v id st).1 = true
     ∧ stamp_time_of v id (stamps (vfs_stamp v id st).2) = Some (clock st)
     ∧ ∃ l1 s l2, stamps st = l1 ++ s :: l2 ∧ stamp_key s = (v, id)
         ∧ ((v, id) ∉ stamp_key <$> l1)
         ∧ stamps (vfs_stamp v id st).2
           = l1 ++ Stamping v id (clock st) :: l2)
  ∧ ((v, id) ∉ keys st → vfs_stamp v id st = (false, st)).
Proof.
  split; [apply vfs_stamp_frame|]. split; [apply vfs_stamp_keys|].
  split; [apply vfs_stamp_length|]. split; [apply vfs_stamp_others|].
  split; [|apply vfs_stamp_miss].
  intros Hin. split; [|split; [by apply vfs_stamp_time|]].
  - rewrite vfs_stamp_found. by apply bool_decide_eq_true_2.
  - destruct (key_split _ _ _ Hin) as (l1 & s0 & l2 & Hl & Hs0 & Hl1).
    exists l1, s0, l2. by rewrite (vfs_stamp_hit l1 s0 l2).
Qed.

(** C8: on a registry with at most one stamp per pair, [vfs_rmstamp] changes
    nothing but the list of stamps and calls no [free]; it returns the state it
    was given when the pair has no stamp, and otherwise deletes the stamp of
    the pair and no other.  Afterwards the pair has no stamp, and [vfs_stamp]
    on it returns false and changes nothing. *)
Theorem C8_remove_deletes_without_release v id st :
  stamps_unique st →
  vfs_rmstamp v id st = set_stamps (stamps (vfs_rmstamp v id st)) st
  ∧ released (vfs_rmstamp v id st) = released st
  ∧ ((v, id) ∉ keys st → vfs_rmstamp v id st = st)
  ∧ (∀ l1 s l2, stamps st = l1 ++ s :: l2 → stamp_key s = (v, id) →
       stamps (vfs_rmstamp v id st) = l1 ++ l2)
  ∧ ((v, id) ∉ keys (vfs_rmstamp v id st))
  ∧ vfs_stamp v id (vfs_rmstamp v id st) = (false, vfs_rmstamp v id st).
Proof.
  intros Hu.
  assert (Hhit : ∀ l1 s l2, stamps st = l1 ++ s :: l2 → stamp_key s = (v, id) →
            vfs_rmstamp v id st = set_stamps (l1 ++ l2) st
            ∧ (v, id) ∉ stamp_key <$> l1 ++ l2).
  { intros l1 s l2 Hl Hs. unfold stamps_unique in Hu.
    rewrite Hl, fmap_app in Hu. apply NoDup_app in Hu as (_ & Hd & Hnd).
    simpl in Hnd. apply NoDup_cons in Hnd as [Hl2 _]. rewrite Hs in Hl2.
    assert (Hl1 : (v, id) ∉ stamp_key <$> l1).
    { intros Hin. apply (Hd _ Hin). rewrite <- Hs. simpl. by left. }
    split; [by apply (vfs_rmstamp_hit l1 s l2)|].
    rewrite fmap_app. by intros [?|?]%elem_of_app. }
  assert (Hgone : (v, id) ∉ keys (vfs_rmstamp v id st)).
  { destruct (decide ((v, id) ∈ keys st)) as [Hin|Hin].
    - destruct (key_split _ _ _ Hin) as (l1 & s & l2 & Hl & Hs & _).
      destruct (Hhit l1 s l2 Hl Hs) as [-> Hnot]. done.
    - by rewrite vfs_rmstamp_miss. }
  split; [apply vfs_rmstamp_frame|]. split.
  { rewrite vfs_rmstamp_frame. done. }
  split; [apply vfs_rmstamp_miss|]. split.
  { intros l1 s l2 Hl Hs. by destruct (Hhit l1 s l2 Hl Hs) as [-> _]. }
  split; [done|]. by apply vfs_stamp_miss.
Qed.

(** C10: in a registry whose stamps belong to classes that are not local and
    have ids that are not NULL (every registry the program reaches),
    [vfs_addstamp] for a pair that has a stamp does just what [vfs_stamp]
    does: the pairs, their order and their number stay, so no stamp is added,
    and the stamp of the pair has the time of the clock. *)
Theorem C10_addstamp_refreshes_existing v id st :
  stamps_remote st → (v, id) ∈ keys st →
  vfs_addstamp v id st = (vfs_stamp v id st).2
  ∧ keys (vfs_addstamp v id st) = keys st
  ∧ length (stamps (vfs_addstamp v id st)) = length (stamps st)
  ∧ count_stamps v id (stamps (vfs_addstamp v id st))
    = count_stamps v id (stamps st)
  ∧ stamp_time_of v id (stamps (vfs_addstamp v id st)) = Some (clock st)
  ∧ (∀ i s, stamps st !! i = Some s → stamp_key s ≠ (v, id) →
            stamps (vfs_addstamp v id st) !! i = Some s).
Proof.
  intros Hrem Hin.
  assert (Hvi : is_local v = false ∧ id ≠ 0%N).
  { apply stamps_remote_keys in Hrem. rewrite Forall_forall in Hrem.
    apply (Hrem (v, id) Hin). }
  destruct Hvi as [Hl Hi].
  assert (Heq : vfs_addstamp v id st = (vfs_stamp v id st).2).
  { rewrite vfs_addstamp_remote by done. by rewrite bool_decide_eq_true_2. }
  rewrite Heq.
  split; [done|]. split; [apply vfs_stamp_keys|].
  split; [apply vfs_stamp_length|].
  split; [|split; [by apply vfs_stamp_time|apply vfs_stamp_others]].
  rewrite !count_stamps_keys. fold (keys (vfs_stamp v id st).2). fold (keys st).
  by rewrite vfs_stamp_keys.
Qed.

(** ** Further properties of gc.c *)

(** In a registry with at most one stamp per pair, removing a pair deletes
    its stamp and leaves the pair without one. *)
Lemma vfs_rmstamp_unique l1 s l2 v id st :
  stamps_unique st → stamps st = l1 ++ s :: l2 → stamp_key s = (v, id) →
  vfs_rmstamp v id st = set_stamps (l1 ++ l2) st
  ∧ ((v, id) ∉ stamp_key <$> l1) ∧ ((v, id) ∉ stamp_key <$> l2).
Proof.
  intros Hu Hl Hs. unfold stamps_unique in Hu.
  rewrite Hl, fmap_app in Hu. apply NoDup_app in Hu as (_ & Hd & Hnd).
  simpl in Hnd. apply NoDup_cons in Hnd as [Hl2 _]. rewrite Hs in Hl2.
  assert (Hl1 : (v, id) ∉ stamp_key <$> l1).
  { intros Hin. apply (Hd _ Hin). rewrite <- Hs. simpl. by left. }
  split; [by apply (vfs_rmstamp_hit l1 s l2)|done].
Qed.

Lemma vfs_rmstamp_gone v id st :
  stamps_unique st → (v, id) ∉ keys (vfs_rmstamp v id st).
Proof.
  intros Hu. destruct (decide ((v, id) ∈ keys st)) as [Hin|Hin].
  - destruct (key_split _ _ _ Hin) as (l1 & s & l2 & Hl & Hs & _).
    destruct (vfs_rmstamp_unique l1 s l2 v id st Hu Hl Hs) as (-> & H1 & H2).
    unfold keys. simpl. rewrite fmap_app. by intros [?|?]%elem_of_app.
  - by rewrite vfs_rmstamp_miss.
Qed.

Lemma vfs_addstamp_time v id st :
  is_local v = false → id ≠ 0%N →
  stamp_time_of v id (stamps (vfs_addstamp v id st)) = Some (clock st).
Proof.
  intros Hl Hi. rewrite vfs_addstamp_remote by done.
  case_bool_decide as Hin; [by apply vfs_stamp_time|].
  simpl. unfold stamp_time_of.
  by rewrite (find_hit (stamps st) (Stamping v id (clock st)) []).
Qed.

(** X1: [timeoutcmp] is true exactly when its first time is not later than
    the second, seconds compared first and microseconds on a tie.  The test
    is reflexive (equal times count), total, transitive and antisymmetric,
    and on times with microseconds in [0, 1000000) it is the comparison of
    the two times counted in microseconds. *)
Theorem X1_timeoutcmp_orders_times t1 t2 t3 :
  (timeoutcmp t1 t2 = true ↔ timeval_le t1 t2)
  ∧ timeoutcmp t1 t1 = true
  ∧ (timeoutcmp t1 t2 = true ∨ timeoutcmp t2 t1 = true)
  ∧ (timeoutcmp t1 t2 = true → timeoutcmp t2 t3 = true →
     timeoutcmp t1 t3 = true)
  ∧ (timeoutcmp t1 t2 = true → timeoutcmp t2 t1 = true → t1 = t2)
  ∧ (timeval_normal t1 → timeval_normal t2 →
     (timeoutcmp t1 t2 = true ↔ timeval_usec t1 ≤ timeval_usec t2)).
Proof.
  rewrite !timeoutcmp_le.
  unfold timeval_le, timeval_normal, timeval_usec.
  destruct t1 as [s1 u1], t2 as [s2 u2], t3 as [s3 u3]. simpl.
  split; [done|]. split; [lia|]. split; [lia|]. split; [lia|].
  split; [|lia]. intros H1 H2. f_equal; lia.
Qed.

(** X2: for a class that is not local and an id that is not NULL,
    [vfs_addstamp] leaves the pair with a stamp whose time is the clock,
    whether the pair had a stamp or not: a [vfs_stamp] that follows finds it
    and [vfs_timeouts] is 10.  A pair that had no stamp gets its stamp at the
    end of the list, behind the stamps that were there, and nothing but the
    list changes. *)
Theorem X2_addstamp_then_lookup v id st :
  is_local v = false → id ≠ 0%N →
  stamp_time_of v id (stamps (vfs_addstamp v id st)) = Some (clock st)
  ∧ (vfs_stamp v id (vfs_addstamp v id st)).1 = true
  ∧ ((v, id) ∉ keys st →
     stamps (vfs_addstamp v id st) = stamps st ++ [Stamping v id (clock st)])
  ∧ vfs_addstamp v id st = set_stamps (stamps (vfs_addstamp v id st)) st
  ∧ vfs_timeouts (vfs_addstamp v id st) = 10.
Proof.
  intros Hl Hi. pose proof (vfs_addstamp_member v id st Hl Hi) as Hin.
  split; [by apply vfs_addstamp_time|]. split.
  { rewrite vfs_stamp_found. by apply bool_decide_eq_true_2. }
  split.
  { intros Hnot. rewrite vfs_addstamp_remote by done.
    by rewrite bool_decide_eq_false_2. }
  split; [apply vfs_addstamp_frame|].
  unfold vfs_timeouts, keys in *.
  destruct (stamps (vfs_addstamp v id st)); [|done]. by apply elem_of_nil in Hin.
Qed.

(** X3: for a local class or a NULL id [vfs_addstamp] returns the state it
    was given; it does not even refresh a stamp of the pair.  So does
    [vfs_stamp_path] on a path of such a class or id, and [vfs_stamp_create]
    then does no more than remove the stamp of the current directory (when
    there is a listener). *)
Theorem X3_addstamp_declines_local_and_null v id st :
  is_local v = true ∨ id = 0%N →
  vfs_addstamp v id st = st
  ∧ (∀ path, vfs_path_from_str path = VfsPath v id → vfs_stamp_path path st = st)
  ∧ vfs_stamp_create v id st
    = match listener st with
      | Some _ => vfs_rmstamp (path_class (current_dir st))
                    (path_id (current_dir st)) st
      | None => st
      end.
Proof.
  intros Hcase.
  assert (Hadd : ∀ s, vfs_addstamp v id s = s).
  { intros s. unfold vfs_addstamp, is_local in *.
    destruct (Z.land _ _ =? 0); [|done].
    destruct Hcase as [?| ->]; [done|]. done. }
  split; [apply Hadd|]. split.
  - intros path Hpath. unfold vfs_stamp_path. rewrite Hpath. apply Hadd.
  - unfold vfs_stamp_create. destruct (listener st); [|done].
    destruct (negb _); [|done]. destruct (_ && _); [apply Hadd|done].
Qed.

(** X4: for a class that is not local and an id that is not NULL, creating
    the stamp of a pair that had none and removing it again gives back the
    state exactly.  The other way round, in a registry with at most one stamp
    per pair, removing the stamp of a pair and creating it again moves it to
    the end of the list with the time of the clock. *)
Theorem X4_add_and_remove_compose v id st :
  is_local v = false → id ≠ 0%N →
  ((v, id) ∉ keys st → vfs_rmstamp v id (vfs_addstamp v id st) = st)
  ∧ (stamps_unique st → ∀ l1 s l2,
       stamps st = l1 ++ s :: l2 → stamp_key s = (v, id) →
       vfs_addstamp v id (vfs_rmstamp v id st)
       = set_stamps (l1 ++ l2 ++ [Stamping v id (clock st)]) st).
Proof.
  intros Hl Hi. split.
  - intros Hnot. rewrite vfs_addstamp_remote by done.
    rewrite bool_decide_eq_false_2 by done.
    rewrite (vfs_rmstamp_hit (stamps st) (Stamping v id (clock st)) []); try done.
    rewrite app_nil_r. by destruct st.
  - intros Hu l1 s l2 Hst Hs.
    destruct (vfs_rmstamp_unique l1 s l2 v id st Hu Hst Hs) as (Hrm & H1 & H2).
    rewrite Hrm, vfs_addstamp_remote by done.
    rewrite bool_decide_eq_false_2.
    + simpl. rewrite <- app_assoc. by destruct st.
    + unfold keys. simpl. rewrite fmap_app. by intros [?|?]%elem_of_app.
Qed.

(** The stamps of the other pairs are not affected by [vfs_rmstamp] and
    [vfs_addstamp]. *)
Lemma vfs_rmstamp_other v id st k :
  k ≠ (v, id) → k ∈ keys (vfs_rmstamp v id st) ↔ k ∈ keys st.
Proof.
  intros Hk. destruct (decide ((v, id) ∈ keys st)) as [Hin|Hin].
  - destruct (key_split _ _ _ Hin) as (l1 & s & l2 & Hl & Hs & Hl1).
    rewrite (vfs_rmstamp_hit l1 s l2) by done. unfold keys. simpl.
    rewrite Hl, !fmap_app, !elem_of_app. simpl. rewrite elem_of_cons, Hs.
    intuition congruence.
  - by rewrite vfs_rmstamp_miss.
Qed.

Lemma vfs_addstamp_other v id st k :
  k ≠ (v, id) → k ∈ keys (vfs_addstamp v id st) ↔ k ∈ keys st.
Proof.
  intros Hk. destruct (vfs_addstamp_cases v id st) as [->|(-> & _)]; [done|].
  unfold keys. simpl. rewrite fmap_app, elem_of_app. simpl.
  rewrite list_elem_of_singleton. intuition congruence.
Qed.

(** What the tests of [vfs_stamp_create] say when they let it go on to
    [vfs_addstamp]. *)
Lemma vfs_stamp_create_guards vclass id st h :
  negb ((id =? 0)%N
        || ((path_class (current_dir st) =? vclass)%N
            && (path_id (current_dir st) =? id)%N)) = true →
  negb (h vclass id) && negb (vclass =? 0)%N
  && match nothingisopen (class_at vclass) with
     | Some f => negb (f id =? 0)
     | None => false
     end = true →
  id ≠ 0%N ∧ vclass ≠ 0%N ∧ current_key st ≠ (vclass, id)
  ∧ h vclass id = false
  ∧ ∃ f, nothingisopen (class_at vclass) = Some f ∧ f id ≠ 0.
Proof.
  intros H1 H2. apply negb_true_iff, orb_false_iff in H1 as [Hid Hcur].
  apply andb_true_iff in H2 as [H2 Hopen].
  apply andb_true_iff in H2 as [Hret Hv].
  apply negb_true_iff in Hret, Hv. apply N.eqb_neq in Hid, Hv.
  split; [done|]. split; [done|]. split.
  - unfold current_key. intros [= Hc Hp]. rewrite Hc, Hp, !N.eqb_refl in Hcur.
    done.
  - split; [done|]. destruct (nothingisopen _) as [f|]; [|done].
    exists f. split; [done|]. by apply Z.eqb_neq, negb_true_iff.
Qed.

(** X5: [vfs_stamp_create] gives a stamp to no pair but the one it is called
    for, and to that one only when all of this holds: there is a listener and
    it did not set [ret], the class is not NULL, is not local and has a
    [nothingisopen] that returns non-zero for the id, the id is not NULL, and
    the pair is not the current directory. *)
Theorem X5_stamp_create_stamps_only_when_idle vclass id st k :
  k ∈ keys (vfs_stamp_create vclass id st) → k ∉ keys st →
  k = (vclass, id)
  ∧ is_local vclass = false ∧ id ≠ 0%N ∧ vclass ≠ 0%N
  ∧ current_key st ≠ (vclass, id)
  ∧ ∃ h f, listener st = Some h ∧ h vclass id = false
           ∧ nothingisopen (class_at vclass) = Some f ∧ f id ≠ 0.
Proof.
  intros Hin Hnot. unfold vfs_stamp_create in Hin.
  destruct (listener st) as [h|] eqn:Hh; [|done].
  set (st1 := vfs_rmstamp (path_class (current_dir st))
                (path_id (current_dir st)) st) in *.
  assert (Hsub : ∀ x, x ∈ keys st1 → x ∈ keys st).
  { intros x Hx. eapply elem_of_sublist; [exact Hx|].
    apply keys_sublist, vfs_rmstamp_shrinks. }
  destruct (negb (_ || _)) eqn:Hg1; [|by apply Hsub in Hin].
  destruct (negb (h vclass id) && _ && _) eqn:Hg2; [|by apply Hsub in Hin].
  destruct (vfs_stamp_create_guards vclass id st h Hg1 Hg2)
    as (Hid & Hv & Hcur & Hret & f & Hf & Hopen).
  destruct (vfs_addstamp_cases vclass id st1) as [Hk|(Heq & _ & Hl & _)].
  { rewrite Hk in Hin. by apply Hsub in Hin. }
  rewrite Heq in Hin. unfold keys in Hin. simpl in Hin.
  rewrite fmap_app in Hin. apply elem_of_app in Hin as [Hin|Hin].
  { by apply Hsub in Hin. }
  simpl in Hin. apply list_elem_of_singleton in Hin.
  split; [done|]. split; [done|]. split; [done|]. split; [done|].
  split; [done|]. by exists h, f.
Qed.

(** X6: in a registry with at most one stamp per pair and with a listener of
    "vfs_timestamp", the current directory has no stamp after
    [vfs_stamp_create], whatever the arguments, and there is still at most
    one stamp per pair. *)
Theorem X6_current_directory_is_never_stamped vclass id st h :
  stamps_unique st → listener st = Some h →
  (current_key st ∉ keys (vfs_stamp_create vclass id st))
  ∧ stamps_unique (vfs_stamp_create vclass id st).
Proof.
  intros Hu Hh. split.
  - unfold vfs_stamp_create. rewrite Hh.
    pose proof (vfs_rmstamp_gone (path_class (current_dir st))
                  (path_id (current_dir st)) st Hu) as Hgone.
    destruct (negb (_ || _)) eqn:Hg1; [|done].
    destruct (negb (h vclass id) && _ && _) eqn:Hg2; [|done].
    destruct (vfs_stamp_create_guards vclass id st h Hg1 Hg2)
      as (_ & _ & Hcur & _).
    by rewrite vfs_addstamp_other.
  - by apply (vfs_stamp_create_preserves NoDup unique_registry_property).
Qed.

(** X7: when a directory is left, that is, [vfs_release_path] is called for
    a path whose pair is not the current directory, with a class that is not
    local and has a [nothingisopen] that returns non-zero, an id that is not
    NULL and a listener that does not set [ret], then the pair has exactly
    one stamp afterwards and its time is the clock, the current directory has
    none, no [free] is called, and every other pair has a stamp exactly when
    it had one. *)
Theorem X7_leaving_a_directory_stamps_it vclass id st h f :
  stamps_unique st → listener st = Some h → h vclass id = false →
  vclass ≠ 0%N → id ≠ 0%N → is_local vclass = false →
  nothingisopen (class_at vclass) = Some f → f id ≠ 0 →
  current_key st ≠ (vclass, id) →
  stamp_time_of vclass id (stamps (vfs_release_path (VfsPath vclass id) st))
  = Some (clock st)
  ∧ count_stamps vclass id (stamps (vfs_release_path (VfsPath vclass id) st))
    = 1%nat
  ∧ (current_key st ∉ keys (vfs_release_path (VfsPath vclass id) st))
  ∧ released (vfs_release_path (VfsPath vclass id) st) = released st
  ∧ (∀ k, k ≠ current_key st → k ≠ (vclass, id) →
       k ∈ keys (vfs_release_path (VfsPath vclass id) st) ↔ k ∈ keys st).
Proof.
  intros Hu Hh Hret Hv Hi Hl Hf Hopen Hcur. unfold vfs_release_path. simpl.
  rewrite (vfs_stamp_create_reaches vclass id st h f) by done.
  set (st1 := vfs_rmstamp (path_class (current_dir st))
                (path_id (current_dir st)) st).
  assert (Hu1 : stamps_unique st1).
  { eapply (shrinks_preserves NoDup unique_registry_property);
      [apply vfs_rmstamp_shrinks|done]. }
  split.
  { rewrite vfs_addstamp_time by done. unfold st1.
    by rewrite vfs_rmstamp_frame. }
  split; [by apply vfs_addstamp_count|]. split.
  { rewrite vfs_addstamp_other by done. by apply vfs_rmstamp_gone. }
  split.
  { rewrite vfs_addstamp_frame. unfold st1. by rewrite vfs_rmstamp_frame. }
  intros k Hk1 Hk2. rewrite vfs_addstamp_other by done.
  by apply vfs_rmstamp_other.
Qed.

(** X8: [vfs_addstamp], [vfs_stamp_path], [vfs_stamp_create] and
    [vfs_release_path] change nothing but the list of stamps: they call no
    [free], and leave the latch, the timeout and what gc.c reads from its
    surroundings as they are.  Only the sweep and [vfs_gc_done] release. *)
Theorem X8_creating_stamps_never_releases v id path vpath st :
  vfs_addstamp v id st = set_stamps (stamps (vfs_addstamp v id st)) st
  ∧ vfs_stamp_path path st = set_stamps (stamps (vfs_stamp_path path st)) st
  ∧ vfs_stamp_create v id st = set_stamps (stamps (vfs_stamp_create v id st)) st
  ∧ vfs_release_path vpath st
    = set_stamps (stamps (vfs_release_path vpath st)) st
  ∧ released (vfs_addstamp v id st) = released st
  ∧ released (vfs_stamp_path path st) = released st
  ∧ released (vfs_stamp_create v id st) = released st
  ∧ released (vfs_release_path vpath st) = released st.
Proof.
  assert (Hrel : ∀ s l, released (set_stamps l s) = released s) by done.
  unfold vfs_stamp_path, vfs_release_path.
  split; [apply vfs_addstamp_frame|]. split; [apply vfs_addstamp_frame|].
  split; [apply vfs_stamp_create_frame|]. split; [apply vfs_stamp_create_frame|].
  split; [by rewrite vfs_addstamp_frame|]. split; [by rewrite vfs_addstamp_frame|].
  split; by rewrite vfs_stamp_create_frame.
Qed.

Lemma sweep_frame_refl st : sweep_frame st st.
Proof. unfold sweep_frame. done. Qed.

Lemma sweep_frame_trans a b c :
  sweep_frame a b → sweep_frame b c → sweep_frame a c.
Proof.
  unfold sweep_frame.
  intros (H1 & H2 & H3 & H4 & H5 & H6) (K1 & K2 & K3 & K4 & K5 & K6).
  split; [by etrans|]. split; [by etrans|]. split_and!; congruence.
Qed.

Lemma vfs_rmstamp_sweep_frame v id st : sweep_frame st (vfs_rmstamp v id st).
Proof.
  split; [apply vfs_rmstamp_shrinks|]. rewrite vfs_rmstamp_frame. done.
Qed.

Lemma vfs_expire_sweep_frame fuel : ∀ now st st',
  vfs_expire fuel now st = Some st' → sweep_frame st st'.
Proof.
  induction fuel as [|n IH]; intros now st st' H; [done|].
  rewrite vfs_expire_S in H. destruct (locked st).
  { injection H as <-. apply sweep_frame_refl. }
  destruct (g_slist_foreach _ _ _ _) as [st2|] eqn:Hloop; [|done].
  injection H as <-.
  change (sweep_frame (set_locked true st) st2).
  rewrite g_slist_foreach_in_turn in Hloop.
  revert Hloop. apply foreach_preserves;
    [apply sweep_frame_refl|apply sweep_frame_trans|].
  intros x s s' Hx. unfold vfs_stamp_expire in Hx.
  destruct (match sweep_arg now st with None => true | Some _ => _ end).
  2:{ injection Hx as <-. apply sweep_frame_refl. }
  destruct (vfs_stamp_free _ _ _ _) as [s1|] eqn:Hfree; [|done].
  injection Hx as <-.
  apply sweep_frame_trans with s1; [|apply vfs_rmstamp_sweep_frame].
  unfold vfs_stamp_free in Hfree. destruct (free _) as [r|].
  2:{ injection Hfree as <-. apply sweep_frame_refl. }
  unfold call_free in Hfree.
  apply sweep_frame_trans
    with (set_released (released s ++ [(stamp_v x, stamp_id x)]) s).
  { split; [done|]. split; [by apply prefix_app_r|done]. }
  revert Hfree. apply foreach_preserves;
    [apply sweep_frame_refl|apply sweep_frame_trans|].
  intros b a a'. apply IH.
Qed.

(** X9: in every state, with the latch set or not and whatever the
    callbacks re-enter, [vfs_expire] returns, and the state it returns
    differs from the one it was given only in that links of the list are
    deleted and calls of [free] are appended to the trace: a sweep creates no
    stamp, changes no time of a stamp that stays, and leaves the latch, the
    timeout and the surroundings as they were. *)
Theorem X9_sweep_only_deletes_and_releases n now st :
  ∃ st', vfs_expire (S (S n)) now st = Some st'
    ∧ sweep_frame st st'
    ∧ locked st' = locked st
    ∧ (∀ s, s ∈ stamps st' → s ∈ stamps st).
Proof.
  destruct (vfs_expire_total n now st) as [st' Hrun]. exists st'.
  pose proof (vfs_expire_sweep_frame _ _ _ _ Hrun) as Hframe.
  split; [done|]. split; [done|]. split; [by eapply vfs_expire_latch|].
  intros s Hs. eapply elem_of_sublist; [exact Hs|apply Hframe].
Qed.

Lemma filter_expired_twice ud (l : list vfs_stamping) :
  filter (λ s, expired ud s = false) (filter (λ s, expired ud s = false) l)
  = filter (λ s, expired ud s = false) l
  ∧ filter (λ s, expired ud s = true) (filter (λ s, expired ud s = false) l)
    = [].
Proof.
  induction l as [|x l [IH1 IH2]]; [done|].
  destruct (expired ud x) eqn:Hx.
  - rewrite (filter_cons_False _ x l) by congruence. done.
  - rewrite (filter_cons_True _ x l) by done.
    rewrite filter_cons_True by done. rewrite filter_cons_False by congruence.
    by rewrite IH1.
Qed.

(** X10: a sweep that follows a sweep with the same argument, clock and
    timeout finds nothing to do: started with the latch open on a registry
    with at most one stamp per pair, the second call returns the state the
    first one left, so no stamp goes and no [free] is called twice. *)
Theorem X10_second_sweep_changes_nothing n now st :
  locked st = false → stamps_unique st →
  ∃ st1, vfs_expire (S (S n)) now st = Some st1
    ∧ vfs_expire (S (S n)) now st1 = Some st1
    ∧ (now = false → vfs_timeout_handler (S (S n)) st1 = Some st1).
Proof.
  intros Hlock Hu. exists (swept (sweep_arg now st) st).
  assert (H1 : vfs_expire (S (S n)) now st = Some (swept (sweep_arg now st) st))
    by (by apply vfs_expire_unlocked; [|left]).
  assert (H2 : vfs_expire (S (S n)) now (swept (sweep_arg now st) st)
               = Some (swept (sweep_arg now st) st)).
  { rewrite vfs_expire_unlocked; [|done|left].
    - f_equal.
      change (sweep_arg now (swept (sweep_arg now st) st)) with (sweep_arg now st).
      unfold swept at 1. simpl.
      destruct (filter_expired_twice (sweep_arg now st) (stamps st)) as [-> ->].
      rewrite app_nil_r. by destruct st.
    - unfold stamps_unique. eapply sublist_NoDup; [exact Hu|].
      apply fmap_sublist, sublist_filter. }
  split; [done|]. split; [done|]. by intros ->.
Qed.

Lemma filter_all_expired ud (l : list vfs_stamping) :
  (∀ s, s ∈ l → expired ud s = true) →
  filter (λ s, expired ud s = true) l = l
  ∧ filter (λ s, expired ud s = false) l = [].
Proof.
  induction l as [|x l IH]; intros Hall; [done|].
  destruct IH as [IH1 IH2]; [intros s Hs; apply Hall; by right|].
  assert (Hx : expired ud x = true) by (apply Hall; by left).
  rewrite filter_cons_True by done. rewrite filter_cons_False by congruence.
  by rewrite IH1.
Qed.

(** X11: with a timeout that is zero or negative the cutoff is the clock or
    later, so a sweep that is not forced takes every stamp that is not from
    the future: started with the latch open on a registry with at most one
    stamp per pair whose times are not later than the clock, it does exactly
    what a forced sweep does and leaves no stamp. *)
Theorem X11_timeout_zero_sweeps_everything n st :
  locked st = false → stamps_unique st → vfs_timeout st ≤ 0 →
  (∀ s, s ∈ stamps st → timeval_le (stamp_time s) (clock st)) →
  vfs_expire (S (S n)) false st = vfs_expire (S (S n)) true st
  ∧ vfs_expire (S (S n)) false st
    = Some (set_released (released st ++ freed_keys (stamps st))
              (set_stamps [] st)).
Proof.
  intros Hlock Hu Hto Hall.
  rewrite (vfs_expire_unlocked n true); [|done|by right].
  rewrite (vfs_expire_unlocked n false); [|done|by left].
  assert (Heq : swept (sweep_arg false st) st
                = set_released (released st ++ freed_keys (stamps st))
                    (set_stamps [] st)).
  { unfold swept, sweep_arg.
    destruct (filter_all_expired (Some (cutoff st)) (stamps st)) as [-> ->];
      [|done].
    intros s Hs. simpl. apply timeoutcmp_le.
    specialize (Hall s Hs). unfold timeval_le, cutoff in *. simpl. lia. }
  rewrite Heq. unfold sweep_arg. by rewrite swept_forced.
Qed.

Lemma stamp_time_of_elem v id l T :
  stamp_time_of v id l = Some T →
  Stamping v id T ∈ l.
Proof.
  unfold stamp_time_of.
  destruct (g_slist_find_custom _ _ _) as [[i s]|] eqn:Hf; [|done].
  simpl. intros [= <-].
  destruct (find_some_inv _ _ _ _ _ Hf) as (l1 & l2 & -> & _ & Hs & _).
  apply elem_of_app. right. destruct s as [sv si stm].
  injection Hs as -> ->. by left.
Qed.

(** In a registry with at most one stamp per pair, the stamps of the pair of
    [s] that a filter keeps are [s] itself or none. *)
Lemma count_stamps_filter_unique (P : vfs_stamping → Prop)
    `{∀ x, Decision (P x)} l s :
  NoDup (stamp_key <$> l) → s ∈ l →
  count_stamps (stamp_v s) (stamp_id s) (filter P l)
  = if decide (P s) then 1%nat else 0%nat.
Proof.
  intros Hnd Hs. destruct (decide (P s)) as [HP|HP].
  - apply count_one.
    + eapply sublist_NoDup; [exact Hnd|]. apply fmap_sublist, sublist_filter.
    + apply (list_elem_of_fmap_2 stamp_key). by apply list_elem_of_filter.
  - apply count_zero. intros (s' & Hk & Hs')%list_elem_of_fmap.
    apply list_elem_of_filter in Hs' as [HP' Hs'].
    by rewrite (unique_key_inj l s s' Hnd Hs Hs' Hk) in HP.
Qed.

Lemma swept_released ud st :
  released (swept ud st)
  = released st ++ freed_keys (filter (λ s, expired ud s = true) (stamps st)).
Proof. reflexivity. Qed.

Lemma count_calls_app v id r1 r2 :
  count_calls v id (r1 ++ r2)
  = (count_calls v id r1 + count_calls v id r2)%nat.
Proof. unfold count_calls. by rewrite filter_app, length_app. Qed.

(** What a sweep that is not forced does to one stamp. *)
Lemma sweep_fate n st s :
  locked st = false → stamps_unique st → s ∈ stamps st →
  ∃ st', vfs_expire (S (S n)) false st = Some st'
    ∧ (expired (Some (cutoff st)) s = false →
       s ∈ stamps st'
       ∧ count_calls (stamp_v s) (stamp_id s) (released st')
         = count_calls (stamp_v s) (stamp_id s) (released st))
    ∧ (expired (Some (cutoff st)) s = true →
       (stamp_key s ∉ keys st')
       ∧ count_calls (stamp_v s) (stamp_id s) (released st')
         = (count_calls (stamp_v s) (stamp_id s) (released st)
            + match free (class_at (stamp_v s)) with
              | Some _ => 1
              | None => 0
              end)%nat).
Proof.
  intros Hlock Hu Hs. exists (swept (Some (cutoff st)) st).
  split; [by apply (vfs_expire_unlocked n false); [|left]|].
  assert (Hcalls : count_calls (stamp_v s) (stamp_id s)
                     (released (swept (Some (cutoff st)) st))
                   = (count_calls (stamp_v s) (stamp_id s) (released st)
                      + match free (class_at (stamp_v s)) with
                        | Some _ => if expired (Some (cutoff st)) s
                                    then 1 else 0
                        | None => 0
                        end)%nat).
  { rewrite swept_released, count_calls_app, count_freed_keys.
    destruct (free _); [|done].
    rewrite (count_stamps_filter_unique _ (stamps st) s Hu Hs).
    destruct (expired _ s); by case_decide. }
  split.
  - intros Hx. split.
    + unfold swept. simpl. by apply list_elem_of_filter.
    + rewrite Hcalls, Hx. destruct (free _); lia.
  - intros Hx. split; [|by rewrite Hcalls, Hx].
    unfold swept, keys. simpl.
    intros (s' & Hk & Hs')%list_elem_of_fmap.
    apply list_elem_of_filter in Hs' as [Hx' Hs'].
    rewrite (unique_key_inj (stamps st) s s' Hu Hs Hs' Hk) in Hx.
    simpl in Hx. congruence.
Qed.

(** X12: touching postpones the release.  In a registry with at most one
    stamp per pair, after [vfs_stamp] on a pair that has a stamp, a timeout
    sweep made while the seconds of the clock have advanced by less than
    [vfs_timeout] keeps the stamp of the pair, with the time of the touch,
    and calls no [free] for the pair, however old the stamp was before. *)
Theorem X12_touch_postpones_release n v id t2 st :
  locked st = false → stamps_unique st → (v, id) ∈ keys st →
  tv_sec t2 - tv_sec (clock st) < vfs_timeout st →
  ∃ st', vfs_timeout_handler (S (S n)) (set_clock t2 (vfs_stamp v id st).2)
         = Some st'
    ∧ Stamping v id (clock st) ∈ stamps st'
    ∧ count_calls v id (released st') = count_calls v id (released st).
Proof.
  intros Hlock Hu Hin Hage.
  set (st1 := set_clock t2 (vfs_stamp v id st).2).
  assert (Hs : Stamping v id (clock st) ∈ stamps st1).
  { apply stamp_time_of_elem. by apply vfs_stamp_time. }
  assert (Hu1 : stamps_unique st1).
  { unfold stamps_unique. change (NoDup (keys (vfs_stamp v id st).2)).
    by rewrite vfs_stamp_keys. }
  assert (Hlock1 : locked st1 = false).
  { unfold st1. simpl. by rewrite vfs_stamp_frame. }
  destruct (sweep_fate n st1 _ Hlock1 Hu1 Hs) as (st' & Hrun & Hkeep & _).
  exists st'. split; [exact Hrun|].
  destruct Hkeep as [Hk Hc].
  { simpl. unfold timeoutcmp. simpl.
    assert (Hto : vfs_timeout (vfs_stamp v id st).2 = vfs_timeout st)
      by (by rewrite vfs_stamp_frame).
    rewrite Hto.
    apply orb_false_iff. split; [apply Z.ltb_ge; lia|].
    apply andb_false_iff. left. apply Z.eqb_neq. lia. }
  split; [exact Hk|]. simpl in Hc. rewrite Hc. unfold st1. simpl.
  by rewrite vfs_stamp_frame.
Qed.

(** X13: a stamp that is left alone is collected.  After [vfs_addstamp] for
    a class that is not local and an id that is not NULL, in a registry with
    at most one stamp per pair, a timeout sweep made once the clock has
    reached the time of the call plus [vfs_timeout] removes the stamp of the
    pair and calls [free] for it exactly once when the class has a [free]
    (and not at all when it has none). *)
Theorem X13_idle_stamp_is_collected n v id t2 st :
  locked st = false → stamps_unique st → is_local v = false → id ≠ 0%N →
  timeval_le (Timeval (tv_sec (clock st) + vfs_timeout st) (tv_usec (clock st)))
             t2 →
  ∃ st', vfs_timeout_handler (S (S n)) (set_clock t2 (vfs_addstamp v id st))
         = Some st'
    ∧ ((v, id) ∉ keys st')
    ∧ count_calls v id (released st')
      = (count_calls v id (released st)
         + match free (class_at v) with Some _ => 1 | None => 0 end)%nat.
Proof.
  intros Hlock Hu Hl Hi Hlate.
  set (st1 := set_clock t2 (vfs_addstamp v id st)).
  assert (Hs : Stamping v id (clock st) ∈ stamps st1).
  { apply stamp_time_of_elem. by apply vfs_addstamp_time. }
  assert (Hu1 : stamps_unique st1) by (by apply (vfs_addstamp_count v id st)).
  assert (Hlock1 : locked st1 = false).
  { unfold st1. simpl. by rewrite vfs_addstamp_frame. }
  destruct (sweep_fate n st1 _ Hlock1 Hu1 Hs) as (st' & Hrun & _ & Hgo).
  exists st'. split; [exact Hrun|].
  destruct Hgo as [Hk Hc].
  { simpl. apply timeoutcmp_le.
    assert (Hto : vfs_timeout (vfs_addstamp v id st) = vfs_timeout st)
      by (by rewrite vfs_addstamp_frame).
    unfold timeval_le in *. simpl in *. rewrite Hto. lia. }
  split; [exact Hk|]. simpl in Hc. rewrite Hc. unfold st1. simpl.
  by rewrite vfs_addstamp_frame.
Qed.

Lemma filter_nil_iff {A} (P : A → Prop) `{∀ x, Decision (P x)} (l : list A) :
  filter P l = [] ↔ ∀ x, x ∈ l → ¬ P x.
Proof.
  induction l as [|x l IH].
  - split; [by intros _ x ?%elem_of_nil|done].
  - rewrite filter_cons. destruct (decide (P x)) as [HP|HP].
    + split; [done|]. intros Hall. destruct (Hall x); [by left|done].
    + rewrite IH. split.
      * intros Hall y [->|Hy]%elem_of_cons; [done|by apply Hall].
      * intros Hall y Hy. apply Hall. by right.
Qed.

(** X14: [vfs_timeouts] is 0 when there is no stamp and 10 when there is
    one, whatever the times of the stamps.  It is 0 after a forced sweep, and
    after a sweep that is not forced exactly when every stamp was at or
    before the cutoff (sweeps started with the latch open, the second one on
    a registry with at most one stamp per pair). *)
Theorem X14_timeouts_tells_whether_stamps_remain n st :
  (vfs_timeouts st = 0 ↔ stamps st = [])
  ∧ (vfs_timeouts st = 10 ↔ stamps st ≠ [])
  ∧ (locked st = false →
     ∃ st', vfs_expire (S (S n)) true st = Some st' ∧ vfs_timeouts st' = 0)
  ∧ (locked st = false → stamps_unique st →
     ∃ st', vfs_expire (S (S n)) false st = Some st'
       ∧ (vfs_timeouts st' = 0
          ↔ ∀ s, s ∈ stamps st → timeval_le (stamp_time s) (cutoff st))).
Proof.
  assert (H0 : ∀ s, vfs_timeouts s = 0 ↔ stamps s = []).
  { intros s. unfold vfs_timeouts. by destruct (stamps s). }
  split; [apply H0|]. split.
  { unfold vfs_timeouts. by destruct (stamps st). }
  split.
  - intros Hlock. eexists. split.
    + by apply (vfs_expire_unlocked n true); [|right].
    + apply H0. unfold sweep_arg. by rewrite swept_forced.
  - intros Hlock Hu. eexists. split.
    + by apply (vfs_expire_unlocked n false); [|left].
    + rewrite H0. unfold sweep_arg. rewrite swept_cutoff_stamps.
      rewrite filter_nil_iff. split.
      * intros Hall s Hs.
        destruct (decide (timeval_le (stamp_time s) (cutoff st))); [done|].
        by destruct (Hall s Hs).
      * intros Hall s Hs Hn. by apply Hn, Hall.
Qed.

(** The links of a pair are counted with [vfs_stamp_compare]; with at most
    one stamp per pair a link is still in the list exactly when its pair has
    a stamp. *)
Lemma links_of_count data l :
  links_of data l = count_stamps (stamp_v data) (stamp_id data) l.
Proof.
  unfold links_of, count_stamps. f_equal. apply list_filter_iff.
  intros s. apply vfs_stamp_compare_0.
Qed.

Lemma link_live_unique data next st :
  NoDup (stamp_key <$> data :: next) → stamps_unique st →
  link_live (data :: next) st = bool_decide (stamp_key data ∈ keys st).
Proof.
  intros Hl Hu. unfold link_live. rewrite !links_of_count.
  rewrite (count_one (data :: next)); [|done|simpl; by left].
  case_bool_decide as Hin.
  - rewrite (count_one (stamps st)); done.
  - rewrite (count_zero (stamps st)); done.
Qed.

(** X15: when the [free] of the stamped classes does not call back into
    [vfs_expire], [vfs_gc_done] returns, whatever the latch and the times of
    the stamps: it calls [free] once for every stamp whose class has one, in
    the order of the list, leaves no stamp, and changes nothing else; after
    it [vfs_timeouts] is 0. *)
Theorem X15_gc_done_releases_every_stamp fuel st :
  (∀ s r, s ∈ stamps st → free (class_at (stamp_v s)) = Some r →
          r (stamp_id s) = []) →
  ∃ st', vfs_gc_done fuel st = Some st'
    ∧ st' = set_released (released st ++ freed_keys (stamps st))
              (set_stamps [] st)
    ∧ vfs_timeouts st' = 0
    ∧ (∀ v id, is_Some (free (class_at v)) →
         count_calls v id (released st')
         = (count_calls v id (released st) + count_stamps v id (stamps st))%nat).
Proof.
  intros Hquiet. eexists. split.
  { apply vfs_gc_done_quiet. apply Forall_forall. intros s Hs.
    unfold quiet_free. destruct (free _) as [r|] eqn:Hfree; [|done].
    by apply (Hquiet s r). }
  split; [by destruct st|]. split; [done|].
  intros v id [r Hr]. simpl.
  by rewrite count_calls_app, count_freed_keys, Hr.
Qed.

(** X16: started with the latch open on a registry without a stamp of a NULL
    id (the empty registry of program start is one), every sequence of calls
    of the public functions leaves the latch open and leaves no stamp whose
    id is NULL in the state it returns.  The sequence does return a state
    unless it comes to a [vfs_gc_done] whose traversal follows a link that a
    re-entering [free] has freed, which is undefined in C; in particular it
    returns when it does not call [vfs_gc_done] and when no [free] re-enters
    the sweep. *)
Theorem X16_runs_stamp_no_null_id n ops st :
  locked st = false → (∀ s, s ∈ stamps st → stamp_id s ≠ 0%N) →
  (run (S (S n)) ops st = None → stops_in_gc_done (S (S n)) ops st)
  ∧ (OpGcDone ∉ ops ∨ (∀ s, quiet_free s) →
     ∃ st', run (S (S n)) ops st = Some st')
  ∧ ∀ st', run (S (S n)) ops st = Some st' →
    locked st' = false
    ∧ ∀ s, s ∈ stamps st' → stamp_id s ≠ 0%N.
Proof.
  intros Hlock Hst. split; [apply run_none|]. split; [apply run_defined|].
  intros st' Hrun.
  split; [by rewrite (run_latch _ _ _ _ Hrun)|].
  assert (HP : registry_property (Forall (λ k, k.2 ≠ 0%N))).
  { split.
    - intros k k' Hsub Hk. apply Forall_forall. intros x Hx.
      rewrite Forall_forall in Hk. apply Hk. by eapply elem_of_sublist.
    - intros k v id _ _ Hi Hk. apply Forall_app. split; [done|].
      by apply Forall_singleton. }
  assert (Hk : Forall (λ k, k.2 ≠ 0%N) (keys st')).
  { eapply (run_preserves _ HP); [exact Hrun|].
    unfold keys. apply Forall_fmap, Forall_forall. exact Hst. }
  unfold keys in Hk. rewrite Forall_fmap, Forall_forall in Hk. exact Hk.
Qed.

End gc.

(** ** The theorems at concrete backends

    [demo_class] is the table of classes, 1 is the value of [VFSF_LOCAL]. *)

Lemma demo_state_unique : stamps_unique demo_state.
Proof. unfold stamps_unique. by_computation. Defined.

Lemma C1_sweep_expires_by_cutoff_witness :
  locked demo_state = false ∧ stamps_unique demo_state
  ∧ ∃ st', vfs_expire demo_class 2 false demo_state = Some st'
      ∧ stamps st' = [Stamping 3 9 (Timeval 1030 0)]
      ∧ released st' = [(1%N, 7%N); (3%N, 5%N)].
Proof.
  split; [reflexivity|]. split; [exact demo_state_unique|].
  destruct (C1_sweep_expires_by_cutoff demo_class 0 demo_state eq_refl
              demo_state_unique) as (st' & Hrun & Hst & Hrel & _).
  exists st'. split; [exact Hrun|]. split.
  - rewrite Hst. vm_compute. reflexivity.
  - rewrite Hrel. vm_compute. reflexivity.
Defined.

Lemma C2_one_stamp_per_pair_witness :
  stamps_unique demo_state
  ∧ (∃ st', run 1 demo_class demo_path_from_str 2
              [OpStampPath "/#ftp:host"; EnvClock (Timeval 1100 0);
               OpStampPath "/#sh:host"; OpRmstamp 3 5; OpExpire false;
               EnvListener (Some (λ _ _, false)); OpStampCreate 1 8;
               OpStampCreate 1 8; OpStampPath "/home"]
              demo_state = Some st'
       ∧ stamps_unique st'
       ∧ count_stamps 1 7
           (stamps (vfs_addstamp 1 demo_class 1 7
                      (set_clock (Timeval 5000 0)
                         (vfs_addstamp 1 demo_class 1 7 st')))) = 1%nat)
  ∧ stops_in_gc_done 1 demo_class demo_path_from_str 2
      [OpStampPath "/#sh:host"; OpStampPath "/#ftp:host"; OpGcDone]
      (initial_state (Timeval 1000 0) (VfsPath 2 0) None).
Proof.
  split; [exact demo_state_unique|]. split.
  - destruct (C2_one_stamp_per_pair 1 demo_class demo_path_from_str 0
                [OpStampPath "/#ftp:host"; EnvClock (Timeval 1100 0);
                 OpStampPath "/#sh:host"; OpRmstamp 3 5; OpExpire false;
                 EnvListener (Some (λ _ _, false)); OpStampCreate 1 8;
                 OpStampCreate 1 8; OpStampPath "/home"]
                demo_state demo_state_unique) as (_ & Hsome & Hinv).
    destruct Hsome as [st' Hrun].
    { left. intros H.
      repeat (apply elem_of_cons in H as [H|H]; [discriminate|]).
      by apply elem_of_nil in H. }
    exists st'. split; [exact Hrun|].
    destruct (Hinv st' Hrun) as [Hu Htwice]. split; [exact Hu|].
    apply (Htwice 1%N 7%N (Timeval 5000 0)); [reflexivity|discriminate].
  - apply (C2_one_stamp_per_pair 1 demo_class demo_path_from_str 0
             [OpStampPath "/#sh:host"; OpStampPath "/#ftp:host"; OpGcDone]
             (initial_state (Timeval 1000 0) (VfsPath 2 0) None)).
    + unfold stamps_unique. by_computation.
    + vm_compute. reflexivity.
Defined.

Lemma C3_forced_sweep_empties_registry_witness :
  locked demo_state = false
  ∧ ∃ st', vfs_expire demo_class 2 true demo_state = Some st'
      ∧ stamps st' = []
      ∧ released st' = [(1%N, 7%N); (3%N, 9%N); (3%N, 5%N)].
Proof.
  split; [reflexivity|].
  destruct (C3_forced_sweep_empties_registry demo_class 0 demo_state eq_refl)
    as (st' & Hrun & Hnil & Hst & _).
  exists st'. split; [exact Hrun|]. split; [exact Hnil|].
  rewrite Hst. vm_compute. reflexivity.
Defined.

Lemma C4_nested_sweep_is_inert_witness :
  locked demo_state = false ∧ stamps_unique demo_state
  ∧ vfs_expire demo_class 1 true (set_locked true demo_state)
    = Some (set_locked true demo_state)
  ∧ ∃ st', vfs_expire demo_class 2 true demo_state = Some st'
      ∧ locked st' = false
      ∧ released st' = [(1%N, 7%N); (3%N, 9%N); (3%N, 5%N)].
Proof.
  split; [reflexivity|]. split; [exact demo_state_unique|].
  destruct (C4_nested_sweep_is_inert demo_class 0 true demo_state eq_refl
              demo_state_unique) as (Hnested & _ & st' & Hrun & Hst & Hlock & _).
  split; [apply Hnested|].
  exists st'. split; [exact Hrun|]. split; [exact Hlock|].
  rewrite Hst. vm_compute. reflexivity.
Defined.

Lemma C5_stamp_create_inert_without_listener_witness :
  listener nav_state = None
  ∧ vfs_stamp_create 1 demo_class 1 7 nav_state = nav_state.
Proof.
  split; [reflexivity|].
  apply (C5_stamp_create_inert_without_listener 1 demo_class 1 7 nav_state).
  reflexivity.
Defined.

(** C6 as the specification words it fails: in [nav_state] nothing listens,
    session 7 of class 1 has its stamp and the current directory is session 9
    of class 3; after the call for the directory that was left, and after a
    call for the one that was entered, the stamp of session 7 is still
    there. *)
Lemma C6_counterexample :
  listener nav_state = None
  ∧ count_stamps 1 7 (stamps nav_state) = 1%nat
  ∧ ¬ count_stamps 1 7
        (stamps (vfs_release_path 1 demo_class (VfsPath 1 7) nav_state)) = 0%nat
  ∧ ¬ count_stamps 1 7
        (stamps (vfs_stamp_create 1 demo_class 3 9
                   (set_current_dir (VfsPath 1 7) nav_state))) = 0%nat.
Proof. vm_compute. repeat split; discriminate. Qed.

Lemma C6_no_listener_keeps_stamp_witness :
  listener nav_state = None
  ∧ stamps (vfs_release_path 1 demo_class (VfsPath 1 7) nav_state)
    = stamps nav_state.
Proof.
  split; [reflexivity|].
  apply (C6_no_listener_keeps_stamp 1 demo_class 1 7 3 9 nav_state eq_refl).
  right. right. reflexivity.
Defined.

Lemma C7_touch_refreshes_in_place_witness :
  (vfs_stamp 3 9 demo_state).1 = true
  ∧ stamp_time_of 3 9 (stamps (vfs_stamp 3 9 demo_state).2)
    = Some (Timeval 1060 500)
  ∧ vfs_stamp 9 9 demo_state = (false, demo_state).
Proof.
  destruct (C7_touch_refreshes_in_place 3 9 demo_state)
    as (_ & _ & _ & _ & Hhit & _).
  destruct Hhit as (Ht & Htime & _); [by_computation|].
  split; [exact Ht|]. split; [exact Htime|].
  apply (C7_touch_refreshes_in_place 9 9 demo_state). by_computation.
Defined.

Lemma C8_remove_deletes_without_release_witness :
  stamps_unique demo_state
  ∧ released (vfs_rmstamp 3 9 demo_state) = released demo_state
  ∧ vfs_stamp 3 9 (vfs_rmstamp 3 9 demo_state)
    = (false, vfs_rmstamp 3 9 demo_state).
Proof.
  split; [exact demo_state_unique|].
  destruct (C8_remove_deletes_without_release 3 9 demo_state demo_state_unique)
    as (_ & Hrel & _ & _ & _ & Htouch).
  split; [exact Hrel|exact Htouch].
Defined.

Lemma C9_local_classes_never_stamped_witness :
  ∃ st', run 1 demo_class demo_path_from_str 2
           [OpStampPath "/home"; EnvListener (Some (λ _ _, false));
            OpStampCreate 2 5; OpReleasePath (VfsPath 2 6);
            OpStampPath "/#ftp:host"; OpExpire true; OpStampCreate 1 8;
            OpGcDone; OpStampPath "/#sh:host"]
           (initial_state (Timeval 1000 0) (VfsPath 2 0) None) = Some st'
    ∧ ∀ s, s ∈ stamps st' → is_local 1 demo_class (stamp_v s) = false.
Proof.
  destruct (C9_local_classes_never_stamped 1 demo_class demo_path_from_str 0
              [OpStampPath "/home"; EnvListener (Some (λ _ _, false));
               OpStampCreate 2 5; OpReleasePath (VfsPath 2 6);
               OpStampPath "/#ftp:host"; OpExpire true; OpStampCreate 1 8;
               OpGcDone; OpStampPath "/#sh:host"]
              (initial_state (Timeval 1000 0) (VfsPath 2 0) None))
    as (_ & _ & Hinv).
  { simpl. intros s Hs. inversion Hs. }
  eexists. split; [vm_compute; reflexivity|].
  apply Hinv. vm_compute. reflexivity.
Defined.

Lemma C10_addstamp_refreshes_existing_witness :
  stamps_remote 1 demo_class demo_state ∧ (3%N, 9%N) ∈ keys demo_state
  ∧ keys (vfs_addstamp 1 demo_class 3 9 demo_state) = keys demo_state
  ∧ stamp_time_of 3 9 (stamps (vfs_addstamp 1 demo_class 3 9 demo_state))
    = Some (Timeval 1060 500).
Proof.
  assert (Hrem : stamps_remote 1 demo_class demo_state).
  { unfold stamps_remote. by_computation. }
  assert (Hin : (3%N, 9%N) ∈ keys demo_state) by by_computation.
  split; [exact Hrem|]. split; [exact Hin|].
  destruct (C10_addstamp_refreshes_existing 1 demo_class 3 9 demo_state Hrem Hin)
    as (_ & Hk & _ & _ & Htime & _).
  split; [exact Hk|exact Htime].
Defined.

Lemma X1_timeoutcmp_orders_times_witness :
  timeoutcmp (Timeval 1000 500) (Timeval 1000 600) = true
  ∧ timeoutcmp (Timeval 1000 500) (Timeval 1001 0) = true.
Proof.
  destruct (X1_timeoutcmp_orders_times (Timeval 1000 500) (Timeval 1000 600)
              (Timeval 1001 0)) as (_ & _ & _ & Htrans & _ & Husec).
  assert (H12 : timeoutcmp (Timeval 1000 500) (Timeval 1000 600) = true).
  { apply Husec; unfold timeval_normal, timeval_usec; simpl; lia. }
  split; [exact H12|]. apply Htrans; [exact H12|reflexivity].
Defined.

Lemma X2_addstamp_then_lookup_witness :
  stamp_time_of 1 8 (stamps (vfs_addstamp 1 demo_class 1 8 demo_state))
  = Some (Timeval 1060 500)
  ∧ stamps (vfs_addstamp 1 demo_class 1 8 demo_state)
    = demo_stamps ++ [Stamping 1 8 (Timeval 1060 500)].
Proof.
  destruct (X2_addstamp_then_lookup 1 demo_class 1 8 demo_state)
    as (Htime & _ & Hnew & _); [reflexivity|discriminate|].
  split; [exact Htime|]. apply Hnew. by_computation.
Defined.

Lemma X3_addstamp_declines_local_and_null_witness :
  vfs_addstamp 1 demo_class 2 7 demo_state = demo_state
  ∧ vfs_stamp_path 1 demo_class demo_path_from_str "/home" demo_state
    = demo_state.
Proof.
  destruct (X3_addstamp_declines_local_and_null 1 demo_class
              demo_path_from_str 2 7 demo_state) as (Hadd & _);
    [left; reflexivity|].
  destruct (X3_addstamp_declines_local_and_null 1 demo_class
              demo_path_from_str 2 0 demo_state) as (_ & Hpath & _);
    [right; reflexivity|].
  split; [exact Hadd|]. apply Hpath. reflexivity.
Defined.

Lemma X4_add_and_remove_compose_witness :
  vfs_rmstamp 1 8 (vfs_addstamp 1 demo_class 1 8 demo_state) = demo_state.
Proof.
  destruct (X4_add_and_remove_compose 1 demo_class 1 8 demo_state)
    as (Hround & _); [reflexivity|discriminate|].
  apply Hround. by_computation.
Defined.

Lemma X5_stamp_create_stamps_only_when_idle_witness :
  is_local 1 demo_class 1 = false
  ∧ current_key (set_listener (Some (λ _ _, false)) demo_state) ≠ (1%N, 8%N).
Proof.
  destruct (X5_stamp_create_stamps_only_when_idle 1 demo_class 1 8
              (set_listener (Some (λ _ _, false)) demo_state) (1%N, 8%N))
    as (_ & Hl & _ & _ & Hcur & _); [by_computation|by_computation|].
  split; [exact Hl|exact Hcur].
Defined.

Lemma X6_current_directory_is_never_stamped_witness :
  (3%N, 9%N)
  ∉ keys (vfs_stamp_create 1 demo_class 1 8
            (set_current_dir (VfsPath 3 9)
               (set_listener (Some (λ _ _, false)) demo_state))).
Proof.
  apply (X6_current_directory_is_never_stamped 1 demo_class 1 8
           (set_current_dir (VfsPath 3 9)
              (set_listener (Some (λ _ _, false)) demo_state))
           (λ _ _, false)).
  - exact demo_state_unique.
  - reflexivity.
Defined.

Lemma X7_leaving_a_directory_stamps_it_witness :
  stamp_time_of 1 8
    (stamps (vfs_release_path 1 demo_class (VfsPath 1 8)
               (set_listener (Some (λ _ _, false)) demo_state)))
  = Some (Timeval 1060 500).
Proof.
  apply (X7_leaving_a_directory_stamps_it 1 demo_class 1 8
           (set_listener (Some (λ _ _, false)) demo_state)
           (λ _ _, false) (λ _, 1)).
  - exact demo_state_unique.
  - reflexivity.
  - reflexivity.
  - discriminate.
  - discriminate.
  - reflexivity.
  - reflexivity.
  - discriminate.
  - discriminate.
Defined.

Lemma X10_second_sweep_changes_nothing_witness :
  ∃ st1, vfs_expire demo_class 2 false demo_state = Some st1
    ∧ vfs_expire demo_class 2 false st1 = Some st1.
Proof.
  destruct (X10_second_sweep_changes_nothing demo_class 0 false demo_state
              eq_refl demo_state_unique) as (st1 & H1 & H2 & _).
  exists st1. split; [exact H1|exact H2].
Defined.

Lemma X11_timeout_zero_sweeps_everything_witness :
  vfs_expire demo_class 2 false (set_vfs_timeout 0 demo_state)
  = vfs_expire demo_class 2 true (set_vfs_timeout 0 demo_state).
Proof.
  apply (X11_timeout_zero_sweeps_everything demo_class 0
           (set_vfs_timeout 0 demo_state)).
  - reflexivity.
  - exact demo_state_unique.
  - simpl. lia.
  - apply Forall_forall. simpl.
    repeat (apply Forall_cons; split; [unfold timeval_le; simpl; lia|]).
    apply Forall_nil_2.
Defined.

Lemma X12_touch_postpones_release_witness :
  ∃ st', vfs_timeout_handler demo_class 2
           (set_clock (Timeval 1100 0) (vfs_stamp 3 9 demo_state).2) = Some st'
    ∧ Stamping 3 9 (Timeval 1060 500) ∈ stamps st'.
Proof.
  destruct (X12_touch_postpones_release demo_class 0 3 9 (Timeval 1100 0)
              demo_state eq_refl demo_state_unique)
    as (st' & Hrun & Hin & _); [by_computation|simpl; lia|].
  exists st'. split; [exact Hrun|exact Hin].
Defined.

Lemma X13_idle_stamp_is_collected_witness :
  ∃ st', vfs_timeout_handler demo_class 2
           (set_clock (Timeval 1120 500)
              (vfs_addstamp 1 demo_class 1 8 demo_state)) = Some st'
    ∧ (1%N, 8%N) ∉ keys st'.
Proof.
  destruct (X13_idle_stamp_is_collected 1 demo_class 0 1 8 (Timeval 1120 500)
              demo_state eq_refl demo_state_unique)
    as (st' & Hrun & Hgone & _);
    [reflexivity|discriminate|unfold timeval_le; simpl; lia|].
  exists st'. split; [exact Hrun|exact Hgone].
Defined.

Lemma X14_timeouts_tells_whether_stamps_remain_witness :
  vfs_timeouts demo_state = 10
  ∧ ∃ st', vfs_expire demo_class 2 true demo_state = Some st'
      ∧ vfs_timeouts st' = 0.
Proof.
  destruct (X14_timeouts_tells_whether_stamps_remain demo_class 0 demo_state)
    as (_ & H10 & Hforced & _).
  split; [apply H10; discriminate|]. apply Hforced. reflexivity.
Defined.

Lemma X15_gc_done_releases_every_stamp_witness :
  ∃ st', vfs_gc_done demo_class 0 nav_state = Some st'
    ∧ st' = set_released [(1%N, 7%N)] (set_stamps [] nav_state).
Proof.
  destruct (X15_gc_done_releases_every_stamp demo_class 0 nav_state)
    as (st' & Hrun & Hst & _).
  - intros s r Hs Hfree. apply list_elem_of_singleton in Hs. subst s.
    simpl in Hfree. injection Hfree as <-. reflexivity.
  - exists st'. split; [exact Hrun|exact Hst].
Defined.

Lemma X16_runs_stamp_no_null_id_witness :
  ∃ st', run 1 demo_class demo_path_from_str 2
           [EnvListener (Some (λ _ _, false)); OpStampCreate 1 0;
            OpReleasePath (VfsPath 4 0); OpStampPath "/home";
            OpStampPath "/#ftp:host"; OpGcDone; OpStampPath "/#sh:host";
            OpExpire false; OpStamp 1 0]
           (initial_state (Timeval 1000 0) (VfsPath 2 0) None) = Some st'
    ∧ locked st' = false
    ∧ ∀ s, s ∈ stamps st' → stamp_id s ≠ 0%N.
Proof.
  destruct (X16_runs_stamp_no_null_id 1 demo_class demo_path_from_str 0
              [EnvListener (Some (λ _ _, false)); OpStampCreate 1 0;
               OpReleasePath (VfsPath 4 0); OpStampPath "/home";
               OpStampPath "/#ftp:host"; OpGcDone; OpStampPath "/#sh:host";
               OpExpire false; OpStamp 1 0]
              (initial_state (Timeval 1000 0) (VfsPath 2 0) None))
    as (_ & _ & Hinv).
  { reflexivity. }
  { simpl. intros s Hs. inversion Hs. }
  eexists. split; [vm_compute; reflexivity|].
  apply Hinv. vm_compute. reflexivity.
Defined.
